(** * Verification of the Transformers LLM adapter

    A shallow embedding of [src/api/sample_agent/transformers_llm.py]
    (class [TransformersLlm]) and the properties of its specification.

    Conventions of the embedding:
    - a Python [str] is a Rocq [string]; a character is a code point
      below 256;
    - a value decoded from JSON (a Python dict / list / str / int / bool /
      None) is a [json] term; a dict is an association list in insertion
      order with unique keys;
    - a Python exception is a constructor of [exn]; code that can raise
      lives in the [outcome] monad;
    - a generator is the list of the values it yields, in order;
    - the standard-library and framework functions the adapter calls
      ([json.loads], [json.dumps], [hash], [base64.b64encode],
      [_maybe_append_user_content]) are the fields of the class [Runtime]:
      every theorem holds for every runtime, and [RefRuntime] is a concrete
      one on which the examples are evaluated. *)

From Stdlib Require Import String Ascii List ZArith NArith Bool Lia.
From Stdlib Require Import DecimalString.
Import ListNotations.

Open Scope string_scope.
Open Scope list_scope.
Open Scope Z_scope.

Set Implicit Arguments.

(* ================================================================== *)
(** ** Python strings *)

Module PyStr.

(** [str.isspace] on code points below 256. *)
Definition is_space (c : ascii) : bool :=
  let n := N_of_ascii c in
  ((9 <=? n) && (n <=? 13) || (28 <=? n) && (n <=? 32)
   || (n =? 133) || (n =? 160))%N.

Fixpoint lstrip (s : string) : string :=
  match s with
  | EmptyString => EmptyString
  | String c s' => if is_space c then lstrip s' else s
  end.

Fixpoint rstrip (s : string) : string :=
  match s with
  | EmptyString => EmptyString
  | String c s' =>
      match rstrip s' with
      | EmptyString => if is_space c then EmptyString else String c EmptyString
      | r => String c r
      end
  end.

(** [s.strip()] *)
Definition strip (s : string) : string := rstrip (lstrip s).

(** [s.startswith(p)] *)
Definition startswith (p s : string) : bool := String.prefix p s.

Fixpoint rev (s : string) : string :=
  match s with
  | EmptyString => EmptyString
  | String c s' => rev s' ++ String c EmptyString
  end.

(** [s.endswith(p)] *)
Definition endswith (p s : string) : bool := String.prefix (rev p) (rev s).

(** [sub in s] *)
Fixpoint contains (sub s : string) : bool :=
  String.prefix sub s ||
  match s with
  | EmptyString => false
  | String _ s' => contains sub s'
  end.

(** [s[n:]] *)
Fixpoint drop (n : nat) (s : string) : string :=
  match n, s with
  | O, _ => s
  | S _, EmptyString => EmptyString
  | S n', String _ s' => drop n' s'
  end.

(** [s.split('\n')]: never empty, one more piece than there are newlines. *)
Fixpoint split_nl (s : string) : list string :=
  match s with
  | EmptyString => [EmptyString]
  | String c s' =>
      if Ascii.eqb c "010"%char then EmptyString :: split_nl s'
      else match split_nl s' with
           | [] => [String c EmptyString]
           | l :: ls => String c l :: ls
           end
  end.

Definition lower_char (c : ascii) : ascii :=
  let n := N_of_ascii c in
  if ((65 <=? n) && (n <=? 90)
      || (192 <=? n) && (n <=? 222) && negb (n =? 215))%N
  then ascii_of_N (n + 32) else c.

(** [s.lower()] on code points below 256. *)
Fixpoint lower (s : string) : string :=
  match s with
  | EmptyString => EmptyString
  | String c s' => String (lower_char c) (lower s')
  end.

(** [''.join(l)] on a list of strings. *)
Definition join (l : list string) : string :=
  fold_right String.append EmptyString l.

(** [str(n)] for an integer. *)
Definition of_Z (n : Z) : string := NilZero.string_of_int (Z.to_int n).

End PyStr.

(* ================================================================== *)
(** ** Exceptions and the error monad *)

Inductive exn : Type :=
| JSONDecodeError
| KeyError
| IndexError
| TypeError
| AttributeError
| ValidationError        (* pydantic's, a [ValueError] *)
| TransportError.        (* anything the HTTP client raises *)

Inductive outcome (A : Type) : Type :=
| Ok (a : A)
| Raise (e : exn).
Arguments Ok {A} a.
Arguments Raise {A} e.

Definition bind {A B} (m : outcome A) (f : A -> outcome B) : outcome B :=
  match m with
  | Ok a => f a
  | Raise e => Raise e
  end.

Notation "x <- m ;; k" := (bind m (fun x => k))
  (at level 61, m at next level, right associativity).

(* ================================================================== *)
(** ** Values decoded from JSON and Python's dynamic operations on them *)

#[warnings="-register-all"]
Inductive json : Type :=
| JNull
| JBool (b : bool)
| JNum (n : Z)
| JStr (s : string)
| JArr (l : list json)
| JObj (o : list (string * json)).

Definition obj := list (string * json).

Fixpoint lookup (k : string) (o : obj) : option json :=
  match o with
  | [] => None
  | (k', v) :: o' => if String.eqb k k' then Some v else lookup k o'
  end.

Definition has_key (k : string) (o : obj) : bool :=
  match lookup k o with Some _ => true | None => false end.

(** [d[k] = v] on a dict: replace in place, or append. *)
Fixpoint obj_set (k : string) (v : json) (o : obj) : obj :=
  match o with
  | [] => [(k, v)]
  | (k', v') :: o' =>
      if String.eqb k k' then (k, v) :: o' else (k', v') :: obj_set k v o'
  end.

Module Py.

(** [bool(v)] *)
Definition truthy (v : json) : bool :=
  match v with
  | JNull => false
  | JBool b => b
  | JNum n => negb (n =? 0)
  | JStr s => negb (String.eqb s "")
  | JArr l => match l with [] => false | _ => true end
  | JObj o => match o with [] => false | _ => true end
  end.

Definition eq_str (v : json) (s : string) : bool :=
  match v with JStr s' => String.eqb s' s | _ => false end.

(** ['k' in v] *)
Definition contains (k : string) (v : json) : outcome bool :=
  match v with
  | JObj o => Ok (has_key k o)
  | JArr l => Ok (existsb (fun x => eq_str x k) l)
  | JStr s => Ok (PyStr.contains k s)
  | _ => Raise TypeError
  end.

(** [v['k']] *)
Definition getitem (v : json) (k : string) : outcome json :=
  match v with
  | JObj o => match lookup k o with Some x => Ok x | None => Raise KeyError end
  | _ => Raise TypeError
  end.

(** [v[0]] *)
Definition getitem0 (v : json) : outcome json :=
  match v with
  | JArr (x :: _) => Ok x
  | JArr [] => Raise IndexError
  | JStr (String c _) => Ok (JStr (String c EmptyString))
  | JStr EmptyString => Raise IndexError
  | JObj _ => Raise KeyError
  | _ => Raise TypeError
  end.

(** [len(v)] *)
Definition len (v : json) : outcome Z :=
  match v with
  | JObj o => Ok (Z.of_nat (List.length o))
  | JArr l => Ok (Z.of_nat (List.length l))
  | JStr s => Ok (Z.of_nat (String.length s))
  | _ => Raise TypeError
  end.

(** [v.get('k', default)] *)
Definition get (v : json) (k : string) (default : json) : outcome json :=
  match v with
  | JObj o => Ok (match lookup k o with Some x => x | None => default end)
  | _ => Raise AttributeError
  end.

(** [isinstance(v, dict)] and [isinstance(v, str)] *)
Definition is_dict (v : json) : bool :=
  match v with JObj _ => true | _ => false end.
Definition is_str (v : json) : bool :=
  match v with JStr _ => true | _ => false end.

End Py.

(* ================================================================== *)
(** ** Framework types ([google.genai.types], [LlmRequest], [LlmResponse]) *)

Record Blob := mkBlob {
  mime_type : option string;
  data : option string }.

Record FileData := mkFileData {
  file_uri : option string }.

(** [id] is assigned after construction and is not validated: it holds
    whatever value the adapter stores. *)
Record FunctionCall := mkFunctionCall {
  fc_id : json;
  fc_name : option string;
  fc_args : option obj }.

Record FunctionResponse := mkFunctionResponse {
  fr_id : option string;
  fr_response : json }.

Record Part := mkPart {
  text : option string;
  inline_data : option Blob;
  file_data : option FileData;
  function_call : option FunctionCall;
  function_response : option FunctionResponse }.

Record Content := mkContent {
  role : option string;
  parts : option (list Part) }.

Inductive FinishReason : Type :=
| STOP
| MAX_TOKENS
| SAFETY
| FINISH_REASON_UNSPECIFIED.

(** [error_message] is either a literal or [str(e)] of the exception. *)
Inductive err_text : Type :=
| Literal (s : string)
| StrOf (e : exn).

Record LlmResponse := mkLlmResponse {
  content : option Content;
  finish_reason : option FinishReason;
  partial : option bool;
  error_code : option string;
  error_message : option err_text }.

Definition empty_part : Part := mkPart None None None None None.

(** [types.Part(text=s)] for a string [s] *)
Definition text_part (s : string) : Part :=
  mkPart (Some s) None None None None.

Definition function_call_part (fc : FunctionCall) : Part :=
  mkPart None None None (Some fc) None.

(** [types.Part(text=v)] for a decoded value: the framework's model wants
    a string or [None]. *)
Definition Part_of_text (v : json) : outcome Part :=
  match v with
  | JStr s => Ok (text_part s)
  | JNull => Ok empty_part
  | _ => Raise ValidationError
  end.

(** [types.Part.from_function_call(name=.., args=..)]: the framework's
    model wants [name] a string or [None] and [args] a dict or [None];
    the call has no id yet. *)
Definition from_function_call (name args : json) : outcome FunctionCall :=
  n <- match name with
       | JStr s => Ok (Some s)
       | JNull => Ok None
       | _ => Raise ValidationError
       end ;;
  a <- match args with
       | JObj o => Ok (Some o)
       | JNull => Ok None
       | _ => Raise ValidationError
       end ;;
  Ok (mkFunctionCall JNull n a).

Definition set_id (fc : FunctionCall) (id : json) : FunctionCall :=
  mkFunctionCall id (fc_name fc) (fc_args fc).

(** [LlmResponse(content=Content(role="model", parts=ps), finish_reason=fr)] *)
Definition final_response (ps : list Part) (fr : FinishReason) : LlmResponse :=
  mkLlmResponse (Some (mkContent (Some "model") (Some ps))) (Some fr)
                None None None.

(** [LlmResponse(content=Content(role="model", parts=[Part(text=t)]),
    partial=True)] *)
Definition partial_response (t : string) : LlmResponse :=
  mkLlmResponse (Some (mkContent (Some "model") (Some [text_part t]))) None
                (Some true) None None.

Definition error_response (code : string) (msg : err_text) : LlmResponse :=
  mkLlmResponse None None None (Some code) (Some msg).

Definition is_partial (r : LlmResponse) : bool :=
  match partial r with Some true => true | _ => false end.

Definition is_error (r : LlmResponse) : bool :=
  match error_code r with Some _ => true | None => false end.

(** A final response: content, not marked partial. *)
Definition is_final (r : LlmResponse) : bool :=
  match content r with Some _ => negb (is_partial r) | None => false end.

(* ================================================================== *)
(** ** The functions the adapter takes from outside *)

Class Runtime := {
  (** [json.loads]; [None] is [json.JSONDecodeError] *)
  json_loads : string -> option json;
  (** [json.dumps] *)
  json_dumps : json -> string;
  (** the built-in [hash] on strings *)
  hash : string -> Z;
  (** [base64.b64encode(..).decode()] *)
  b64encode : string -> string;
  (** [BaseLlm._maybe_append_user_content] as a function on the contents *)
  maybe_append_user_content : list Content -> list Content }.

Definition try_except {A} (body : outcome A) (caught : exn -> bool)
    (handler : outcome A) : outcome A :=
  match body with
  | Raise e => if caught e then handler else Raise e
  | Ok a => Ok a
  end.

(* ================================================================== *)
(** ** The adapter: response decoding *)

Section Decoder.
Context {rt : Runtime}.

(** [json.loads(s)] with its exception. *)
Definition loads (s : string) : outcome json :=
  match json_loads s with
  | Some v => Ok v
  | None => Raise JSONDecodeError
  end.

(** [f"call_{hash(content) % 10000}"] *)
Definition call_id (content : string) : json :=
  JStr ("call_" ++ PyStr.of_Z (hash content mod 10000))%string.

Definition bounded_by_braces (s : string) : bool :=
  PyStr.startswith "{" s && PyStr.endswith "}" s.

(** The three [if / elif / elif] branches of
    [_try_parse_function_call_from_text], on the decoded [data];
    [content] is the stripped text. *)
Definition recover_shapes (data : json) (content : string)
    : outcome (option Part) :=
  ty <- Py.get data "type" JNull ;;
  shape1 <- (if Py.eq_str ty "function"
             then (f <- Py.contains "function" data ;;
                   if f then Py.contains "parameters" data else Ok false)
             else Ok false) ;;
  if shape1 then
    func_name <- Py.getitem data "function" ;;
    params <- Py.getitem data "parameters" ;;
    let func_args := if Py.is_dict params then params else JObj [] in
    fc <- from_function_call func_name func_args ;;
    Ok (Some (function_call_part (set_id fc (call_id content))))
  else
    shape2 <- (n <- Py.contains "name" data ;;
               if n then Py.contains "parameters" data else Ok false) ;;
    if shape2 then
      func_name <- Py.getitem data "name" ;;
      params <- Py.getitem data "parameters" ;;
      let func_args := if Py.is_dict params then params else JObj [] in
      fc <- from_function_call func_name func_args ;;
      Ok (Some (function_call_part (set_id fc (call_id content))))
    else
      shape3 <- (f <- Py.contains "function" data ;;
                 if f then (fd <- Py.getitem data "function" ;;
                            Ok (Py.is_dict fd))
                 else Ok false) ;;
      if shape3 then
        func_data <- Py.getitem data "function" ;;
        has_name <- Py.contains "name" func_data ;;
        if has_name then
          func_name <- Py.getitem func_data "name" ;;
          func_args <- Py.get func_data "parameters" (JObj []) ;;
          func_args <- match func_args with
                       | JStr s =>
                           try_except (loads s)
                             (fun e => match e with
                                       | JSONDecodeError => true
                                       | _ => false
                                       end)
                             (Ok (JObj []))
                       | _ => Ok func_args
                       end ;;
          fc <- from_function_call func_name func_args ;;
          Ok (Some (function_call_part (set_id fc (call_id content))))
        else Ok None
      else Ok None.

Definition caught_by_recovery (e : exn) : bool :=
  match e with
  | JSONDecodeError | KeyError | TypeError => true
  | _ => false
  end.

Definition _try_parse_function_call_from_text (content : string)
    (allow_conversion : bool) : outcome (option Part) :=
  if negb allow_conversion then Ok None
  else
    let content_stripped := PyStr.strip content in
    if negb (bounded_by_braces content_stripped) then Ok None
    else
      try_except
        (let content := PyStr.strip content in
         if bounded_by_braces content then
           data <- loads content ;;
           recover_shapes data content
         else Ok None)
        caught_by_recovery
        (Ok None).

(** One iteration of the loop of [_parse_raw_streaming_response]: the
    content fragment the line contributes, if any. *)
Definition sse_line_fragment (line : string) : outcome (option json) :=
  let line := PyStr.strip line in
  if PyStr.startswith "data: " line then
    try_except
      (data <- loads (PyStr.drop 6 line) ;;
       has_choices <- Py.contains "choices" data ;;
       nonempty <- (if has_choices
                    then (cs <- Py.getitem data "choices" ;;
                          n <- Py.len cs ;;
                          Ok (0 <? n))
                    else Ok false) ;;
       if nonempty then
         cs <- Py.getitem data "choices" ;;
         choice <- Py.getitem0 cs ;;
         has_delta <- Py.contains "delta" choice ;;
         has_content <- (if has_delta
                         then (d <- Py.getitem choice "delta" ;;
                               Py.contains "content" d)
                         else Ok false) ;;
         if has_content then
           d <- Py.getitem choice "delta" ;;
           c <- Py.getitem d "content" ;;
           if Py.truthy c then Ok (Some c) else Ok None
         else Ok None
       else Ok None)
      (fun e => match e with JSONDecodeError => true | _ => false end)
      (Ok None)
  else Ok None.

(** The [for] loop: the list [content_parts]. *)
Fixpoint sse_content_parts (lines : list string) : outcome (list json) :=
  match lines with
  | [] => Ok []
  | line :: rest =>
      f <- sse_line_fragment line ;;
      tl <- sse_content_parts rest ;;
      Ok (match f with Some c => c :: tl | None => tl end)
  end.

(** [''.join(content_parts)]: every item must be a string. *)
Fixpoint join_values (l : list json) : outcome string :=
  match l with
  | [] => Ok ""
  | JStr s :: tl => r <- join_values tl ;; Ok (s ++ r)%string
  | _ :: _ => Raise TypeError
  end.

Definition _parse_raw_streaming_response (response_text : string)
    (has_function_responses : bool) : outcome LlmResponse :=
  content_parts <- sse_content_parts (PyStr.split_nl response_text) ;;
  full_content <- join_values content_parts ;;
  if negb (String.eqb full_content "") then
    let allow_conversion := negb has_function_responses in
    function_call_part <-
      _try_parse_function_call_from_text full_content allow_conversion ;;
    match function_call_part with
    | Some p => Ok (final_response [p] STOP)
    | None => Ok (final_response [text_part full_content] STOP)
    end
  else
    Ok (error_response "NO_CONTENT"
          (Literal "No content found in streaming response")).

End Decoder.

Module PyIter.

(** What [for x in v] iterates over. *)
Definition iter (v : json) : outcome (list json) :=
  match v with
  | JArr l => Ok l
  | JObj o => Ok (map (fun kv => JStr (fst kv)) o)
  | JStr s => Ok (map (fun c => JStr (String c EmptyString))
                      (list_ascii_of_string s))
  | _ => Raise TypeError
  end.

End PyIter.

Section RawDecoder.
Context {rt : Runtime}.

(** [json.loads(v)] on a decoded value: only a string can be decoded. *)
Definition loads_value (v : json) : outcome json :=
  match v with
  | JStr s => loads s
  | _ => Raise TypeError
  end.

(** [_try_parse_function_call_from_text(content, allow)] where [content]
    is whatever the payload held: [.strip()] exists on strings only. *)
Definition try_parse_value (content : json) (allow_conversion : bool)
    : outcome (option Part) :=
  match content with
  | JStr s => _try_parse_function_call_from_text s allow_conversion
  | _ => if negb allow_conversion then Ok None else Raise AttributeError
  end.

(** The body of the [for tool_call in tool_calls] loop of
    [_convert_raw_response_to_llm_response]: the part to append, or
    [None] for [continue]. *)
Definition decode_tool_call (tool_call : json) : outcome (option Part) :=
  try_except
    (f <- Py.getitem tool_call "function" ;;
     func_name <- Py.getitem f "name" ;;
     f <- Py.getitem tool_call "function" ;;
     a <- Py.getitem f "arguments" ;;
     func_args <- (if Py.truthy a
                   then (f <- Py.getitem tool_call "function" ;;
                         a <- Py.getitem f "arguments" ;;
                         loads_value a)
                   else Ok (JObj [])) ;;
     fc <- from_function_call func_name func_args ;;
     id <- Py.get tool_call "id" (JStr "") ;;
     Ok (Some (function_call_part (set_id fc id))))
    (fun e => match e with
              | KeyError | JSONDecodeError => true
              | _ => false
              end)
    (Ok None).

Fixpoint decode_tool_calls (tool_calls : list json) : outcome (list Part) :=
  match tool_calls with
  | [] => Ok []
  | tc :: rest =>
      p <- decode_tool_call tc ;;
      ps <- decode_tool_calls rest ;;
      Ok (match p with Some p => p :: ps | None => ps end)
  end.

Definition _convert_raw_response_to_llm_response (response_data : json)
    (has_function_responses : bool) : LlmResponse :=
  let body : outcome LlmResponse :=
    has_choices <- Py.contains "choices" response_data ;;
    no_choices <- (if negb has_choices then Ok true
                   else (cs <- Py.getitem response_data "choices" ;;
                         Ok (negb (Py.truthy cs)))) ;;
    if no_choices then
      Ok (error_response "NO_CHOICES" (Literal "No choices in response"))
    else
      cs <- Py.getitem response_data "choices" ;;
      choice <- Py.getitem0 cs ;;
      message <- Py.get choice "message" (JObj []) ;;
      content <- Py.get message "content" (JStr "") ;;
      tool_calls <- Py.get message "tool_calls" (JArr []) ;;
      parts1 <-
        (if Py.truthy content && negb (Py.truthy tool_calls) then
           let allow_conversion := negb has_function_responses in
           function_call_part <- try_parse_value content allow_conversion ;;
           match function_call_part with
           | Some p => Ok [p]
           | None => p <- Part_of_text content ;; Ok [p]
           end
         else if Py.truthy content then
           p <- Part_of_text content ;; Ok [p]
         else Ok []) ;;
      parts2 <-
        (if Py.truthy tool_calls then
           tcs <- PyIter.iter tool_calls ;;
           decode_tool_calls tcs
         else Ok []) ;;
      let parts := parts1 ++ parts2 in
      match parts with
      | _ :: _ => Ok (final_response parts STOP)
      | [] => Ok (error_response "NO_CONTENT"
                    (Literal "No content in response"))
      end
  in
  match body with
  | Ok r => r
  | Raise e => error_response "RAW_CONVERSION_ERROR" (StrOf e)
  end.

End RawDecoder.

(* ================================================================== *)
(** ** The adapter: request encoding *)

Inductive ContentItem : Type :=
| TextItem (text : string)                       (* {"type": "text", ..} *)
| ImageUrlItem (url : string)                    (* {"type": "image_url", ..} *)
| InputAudioItem (data format : string).         (* {"type": "input_audio", ..} *)

(** The value under ["content"]: a bare string or a list of items. *)
Inductive MsgContent : Type :=
| CStr (s : string)
| CList (items : list ContentItem).

Record ToolCallEntry := mkToolCallEntry {
  tce_id : json;
  tce_name : option string;
  tce_arguments : string }.

(** The two shapes of message dict the encoder builds. *)
Inductive Message : Type :=
| ToolMessage (tool_call_id : option string) (content : string)
| ChatMessage (role : string) (content : MsgContent)
              (tool_calls : option (list ToolCallEntry)).

(** [msg.get("role")] *)
Definition msg_role (m : Message) : string :=
  match m with
  | ToolMessage _ _ => "tool"
  | ChatMessage r _ _ => r
  end.

(** [msg.get("content", "")] *)
Definition msg_content (m : Message) : MsgContent :=
  match m with
  | ToolMessage _ c => CStr c
  | ChatMessage _ c _ => c
  end.

Definition in_list (s : string) (l : list string) : bool :=
  existsb (String.eqb s) l.

Definition _convert_role (role : option string) : string :=
  match role with
  | Some r =>
      if in_list r ["model"; "assistant"] then "assistant"
      else if String.eqb r "user" then "user"
      else if String.eqb r "system" then "system"
      else "user"
  | None => "user"
  end.

(** [s.split("/")[-1]] *)
Fixpoint last_segment (s : string) : string :=
  match s with
  | EmptyString => EmptyString
  | String c s' =>
      if PyStr.contains "/" s then last_segment s' else s
  end.

Definition nonempty_str (o : option string) : bool :=
  match o with
  | Some s => negb (String.eqb s "")
  | None => false
  end.

Definition opt_str (o : option string) : string :=
  match o with Some s => s | None => "" end.

Section Encoder.
Context {rt : Runtime}.

(** One iteration of the loop of [_convert_parts_to_content]: the item
    appended for [part], if any. *)
Definition convert_part (part : Part) : option ContentItem :=
  let inline_ok :=
    match inline_data part with
    | Some blob => nonempty_str (mime_type blob) && nonempty_str (data blob)
    | None => false
    end in
  let file_ok :=
    match file_data part with
    | Some fd => nonempty_str (file_uri fd)
    | None => false
    end in
  if nonempty_str (text part) then
    Some (TextItem (opt_str (text part)))
  else if inline_ok then
    match inline_data part with
    | Some blob =>
        let mime := opt_str (mime_type blob) in
        if PyStr.startswith "image" mime then
          let base64_data := b64encode (opt_str (data blob)) in
          Some (ImageUrlItem
                  ("data:" ++ mime ++ ";base64," ++ base64_data)%string)
        else if PyStr.startswith "audio" mime then
          let base64_data := b64encode (opt_str (data blob)) in
          Some (InputAudioItem base64_data (last_segment mime))
        else None
    | None => None
    end
  else if file_ok then
    match file_data part with
    | Some fd =>
        let uri := opt_str (file_uri fd) in
        if PyStr.startswith "http://" uri || PyStr.startswith "https://" uri
        then Some (ImageUrlItem uri)
        else Some (TextItem ("[File: " ++ uri ++ "]")%string)
    | None => None
    end
  else None.

(** The list [content_parts] after the loop. *)
Fixpoint convert_parts (parts : list Part) : list ContentItem :=
  match parts with
  | [] => []
  | p :: rest =>
      match convert_part p with
      | Some it => it :: convert_parts rest
      | None => convert_parts rest
      end
  end.

Definition _convert_parts_to_content (parts : list Part) : MsgContent :=
  let content_parts := convert_parts parts in
  match content_parts with
  | [TextItem t] => CStr t
  | [] => CStr ""
  | _ => CList content_parts
  end.

Definition is_some {A} (o : option A) : bool :=
  match o with Some _ => true | None => false end.

(** [part.function_response] is an object or [None]; an object is true. *)
Definition has_function_response (p : Part) : bool :=
  is_some (function_response p).

Definition opt_list {A} (o : option (list A)) : list A :=
  match o with Some l => l | None => [] end.

(** The tool messages of one content entry. *)
Fixpoint tool_messages (parts : list Part) : list Message :=
  match parts with
  | [] => []
  | p :: rest =>
      match function_response p with
      | Some fr =>
          ToolMessage (fr_id fr) (json_dumps (fr_response fr))
          :: tool_messages rest
      | None => tool_messages rest
      end
  end.

Definition args_value (a : option obj) : json :=
  match a with Some o => JObj o | None => JNull end.

Fixpoint tool_call_entries (parts : list Part) : list ToolCallEntry :=
  match parts with
  | [] => []
  | p :: rest =>
      match function_call p with
      | Some fc =>
          mkToolCallEntry (fc_id fc) (fc_name fc)
                          (json_dumps (args_value (fc_args fc)))
          :: tool_call_entries rest
      | None => tool_call_entries rest
      end
  end.

(** The messages one [Content] contributes (the body of the [for] loop of
    [_convert_contents_to_messages]). *)
Definition convert_content (c : Content) : list Message :=
  let ps := opt_list (parts c) in
  if existsb has_function_response ps then
    tool_messages ps
  else
    let role_ := _convert_role (role c) in
    let content_ := _convert_parts_to_content ps in
    let tool_calls :=
      if in_list (opt_str (role c)) ["model"; "assistant"]
         && match ps with [] => false | _ => true end
      then match tool_call_entries ps with
           | [] => None
           | tcs => Some tcs
           end
      else None in
    [ChatMessage role_ content_ tool_calls].

Definition _convert_contents_to_messages (contents : list Content)
    : list Message :=
  flat_map convert_content contents.

End Encoder.

(* ================================================================== *)
(** ** The adapter: tools and request parameters *)

(** A Python float is its IEEE-754 bit pattern; the adapter only copies
    floats. *)
Inductive pyfloat : Type :=
| Float (bits : Z).

#[warnings="-register-all"]
Inductive Schema : Type :=
| mkSchema (type : option string)        (* the enum member's value *)
           (description : option string)
           (properties : option (list (string * Schema)))
           (items : option Schema)
           (enum : option (list string))
           (required : option (list string)).

Definition schema_properties (s : Schema) : option (list (string * Schema)) :=
  match s with mkSchema _ _ p _ _ _ => p end.

Definition schema_required (s : Schema) : option (list string) :=
  match s with mkSchema _ _ _ _ _ r => r end.

Record FunctionDeclaration := mkFunctionDeclaration {
  fd_name : option string;
  fd_description : option string;
  fd_parameters : option Schema }.

Record Tool := mkTool {
  function_declarations : option (list FunctionDeclaration) }.

Record GenerateContentConfig := mkConfig {
  system_instruction : option string;
  tools : option (list Tool);
  temperature : option pyfloat;
  max_output_tokens : option Z;
  top_p : option pyfloat;
  stop_sequences : option (list string);
  presence_penalty : option pyfloat;
  frequency_penalty : option pyfloat }.

Record LlmRequest := mkLlmRequest {
  contents : list Content;
  config : GenerateContentConfig }.

Record ApiParams := mkApiParams {
  ap_model : string;
  ap_messages : list Message;
  ap_stream : bool;
  ap_tools : option (list json);
  ap_tool_choice : option string;
  ap_temperature : option pyfloat;
  ap_max_tokens : option Z;
  ap_top_p : option pyfloat;
  ap_stop : option (list string);
  ap_presence_penalty : option pyfloat;
  ap_frequency_penalty : option pyfloat }.

Definition nonempty_list {A} (o : option (list A)) : bool :=
  match o with Some (_ :: _) => true | _ => false end.

Definition str_or_null (o : option string) : json :=
  match o with Some s => JStr s | None => JNull end.

Fixpoint _convert_schema (schema : Schema) : json :=
  match schema with
  | mkSchema ty descr props its en _ =>
      JObj
        ((match ty with
          | Some t => [("type", JStr (PyStr.lower t))]
          | None => []
          end)
         ++ (if nonempty_str descr
             then [("description", JStr (opt_str descr))] else [])
         ++ (match props with
             | Some ((_ :: _) as ps) =>
                 [("properties",
                   JObj ((fix conv (l : list (string * Schema)) : obj :=
                            match l with
                            | [] => []
                            | (name, prop_schema) :: l' =>
                                (name, _convert_schema prop_schema)
                                :: conv l'
                            end) ps))]
             | _ => []
             end)
         ++ (match its with
             | Some i => [("items", _convert_schema i)]
             | None => []
             end)
         ++ (if nonempty_list en
             then [("enum", JArr (map JStr (opt_list en)))] else []))
  end.

(** The dict built for one function declaration. *)
Definition convert_declaration (func_decl : FunctionDeclaration) : json :=
  let parameters :=
    match fd_parameters func_decl with
    | Some ps =>
        [("parameters",
          JObj ([("type", JStr "object");
                 ("properties",
                  JObj (map (fun kv => (fst kv, _convert_schema (snd kv)))
                            (opt_list (schema_properties ps))))]
                ++ (if nonempty_list (schema_required ps)
                    then [("required",
                           JArr (map JStr (opt_list (schema_required ps))))]
                    else [])))]
    | None => []
    end in
  JObj [("type", JStr "function");
        ("function",
         JObj ([("name", str_or_null (fd_name func_decl));
                ("description", JStr (opt_str (fd_description func_decl)))]
               ++ parameters))].

Definition _convert_tools (llm_request : LlmRequest) : option (list json) :=
  if negb (nonempty_list (tools (config llm_request))) then None
  else
    let tools_ :=
      flat_map (fun tool_config =>
                  map convert_declaration
                      (opt_list (function_declarations tool_config)))
               (opt_list (tools (config llm_request))) in
    match tools_ with
    | [] => None
    | _ => Some tools_
    end.

Definition _add_generation_params (api_params : ApiParams)
    (config : GenerateContentConfig) : ApiParams :=
  mkApiParams
    (ap_model api_params) (ap_messages api_params) (ap_stream api_params)
    (ap_tools api_params) (ap_tool_choice api_params)
    (match temperature config with
     | Some t => Some t | None => ap_temperature api_params end)
    (match max_output_tokens config with
     | Some t => Some t | None => ap_max_tokens api_params end)
    (match top_p config with
     | Some t => Some t | None => ap_top_p api_params end)
    (if nonempty_list (stop_sequences config)
     then stop_sequences config else ap_stop api_params)
    (match presence_penalty config with
     | Some t => Some t | None => ap_presence_penalty api_params end)
    (match frequency_penalty config with
     | Some t => Some t | None => ap_frequency_penalty api_params end).

Definition keywords : list string :=
  ["weather"; "time"; "temperature"; "forecast"; "clock"].

(** [content.lower()] on the value under ["content"]: a list has no
    [lower]. *)
Definition content_lower (c : MsgContent) : outcome string :=
  match c with
  | CStr s => Ok (PyStr.lower s)
  | CList _ => Raise AttributeError
  end.

(** [any(msg.get("role") == "tool" for msg in messages)] *)
Definition any_tool_message (messages : list Message) : bool :=
  existsb (fun msg => String.eqb (msg_role msg) "tool") messages.

Definition set_stream (p : ApiParams) (b : bool) : ApiParams :=
  mkApiParams (ap_model p) (ap_messages p) b (ap_tools p) (ap_tool_choice p)
    (ap_temperature p) (ap_max_tokens p) (ap_top_p p) (ap_stop p)
    (ap_presence_penalty p) (ap_frequency_penalty p).

Section Request.
Context {rt : Runtime}.

(** The message list of the request: the encoded conversation, with the
    system instruction in front when there is one. *)
Definition request_messages (llm_request : LlmRequest) : list Message :=
  let messages := _convert_contents_to_messages (contents llm_request) in
  if nonempty_str (system_instruction (config llm_request))
  then ChatMessage "system"
         (CStr (opt_str (system_instruction (config llm_request)))) None
       :: messages
  else messages.

(** [(messages[-1] if messages else {}).get("content", "")] *)
Definition last_content (messages : list Message) : MsgContent :=
  match List.rev messages with
  | last_message :: _ => msg_content last_message
  | [] => CStr ""
  end.

(** The [try] block of [generate_content_async] up to the dispatch: the
    request body, or the exception raised on the way. [model] is
    [self.model]; [llm_request] is the request after
    [_maybe_append_user_content]. *)
Definition build_api_params (model : string) (llm_request : LlmRequest)
    (stream : bool) : outcome ApiParams :=
  let messages := request_messages llm_request in
  let tools_ := _convert_tools llm_request in
  let api_params :=
    mkApiParams model messages stream None None None None None None None
                None in
  api_params <-
    (if nonempty_list tools_ then
       let has_function_responses := any_tool_message messages in
       if has_function_responses then Ok api_params
       else
         content <- content_lower (last_content messages) ;;
         if existsb (fun keyword => PyStr.contains keyword content) keywords
         then Ok (mkApiParams model messages stream tools_ (Some "auto")
                              None None None None None None)
         else Ok api_params
     else Ok api_params) ;;
  Ok (_add_generation_params api_params (config llm_request)).

End Request.

(* ================================================================== *)
(** ** The adapter: streaming *)

Record FunctionDelta := mkFunctionDelta {
  fn_name : option string;
  fn_arguments : option string }.

Record ToolCallDelta := mkToolCallDelta {
  tc_index : Z;
  tc_id : option string;
  tc_function : option FunctionDelta }.

Record Delta := mkDelta {
  delta_content : option string;
  delta_tool_calls : option (list ToolCallDelta) }.

Record Choice := mkChoice {
  choice_delta : Delta;
  choice_finish_reason : option string }.

(** What the client's stream hands over: a bare string, or a chunk object
    with its [choices] (empty when absent). *)
Inductive Chunk : Type :=
| StrChunk (s : string)
| ObjChunk (choices : list Choice).

(** The chunks a stream delivers, and the exception that ends it early. *)
Record Stream := mkStream {
  chunks : list Chunk;
  failure : option exn }.

Record Transport := mkTransport {
  (** [client.chat.completions.create(..)] on the request body *)
  create_stream : ApiParams -> outcome Stream;
  (** [requests.post(..)] and [raise_for_status()]: the body of a 2xx
      response *)
  http_post : ApiParams -> outcome string }.

(** One entry of the dict [accumulated_tool_calls]. *)
Record ToolCallAcc := mkToolCallAcc {
  acc_id : string;
  acc_name : string;
  acc_arguments : string }.

Record StreamState := mkStreamState {
  accumulated_content : string;
  accumulated_tool_calls : list (Z * ToolCallAcc) }.

Definition initial_state : StreamState := mkStreamState "" [].

Definition dquote : ascii := "034"%char.

(** The two patterns: an opening brace, then [name] or [type] in double
    quotes. *)
Definition pattern_name : string :=
  String "{" (String dquote ("name" ++ String dquote EmptyString)).
Definition pattern_type : string :=
  String "{" (String dquote ("type" ++ String dquote EmptyString)).

Definition _looks_like_function_call_in_progress (content : string) : bool :=
  let content_stripped := PyStr.strip content in
  if PyStr.startswith pattern_name content_stripped
     || PyStr.startswith pattern_type content_stripped
  then true
  else if PyStr.contains pattern_name content_stripped
          || PyStr.contains pattern_type content_stripped
  then true
  else false.

Definition _convert_finish_reason (transformers_finish_reason : option string)
    : FinishReason :=
  match transformers_finish_reason with
  | Some r =>
      if String.eqb r "stop" then STOP
      else if String.eqb r "length" then MAX_TOKENS
      else if String.eqb r "tool_calls" then STOP
      else if String.eqb r "content_filter" then SAFETY
      else FINISH_REASON_UNSPECIFIED
  | None => FINISH_REASON_UNSPECIFIED
  end.

Fixpoint acc_lookup (i : Z) (d : list (Z * ToolCallAcc)) : option ToolCallAcc :=
  match d with
  | [] => None
  | (j, a) :: d' => if i =? j then Some a else acc_lookup i d'
  end.

(** [d[i] = a]: in place when the key exists, else at the end. *)
Fixpoint acc_set (i : Z) (a : ToolCallAcc) (d : list (Z * ToolCallAcc))
    : list (Z * ToolCallAcc) :=
  match d with
  | [] => [(i, a)]
  | (j, b) :: d' => if i =? j then (i, a) :: d' else (j, b) :: acc_set i a d'
  end.

(** The body of [for tool_call in delta.tool_calls]. *)
Definition accumulate_tool_call (d : list (Z * ToolCallAcc))
    (tool_call : ToolCallDelta) : list (Z * ToolCallAcc) :=
  let i := tc_index tool_call in
  let entry :=
    match acc_lookup i d with
    | Some a => a
    | None => mkToolCallAcc (opt_str (tc_id tool_call)) "" ""
    end in
  let fname :=
    match tc_function tool_call with
    | Some f => opt_str (fn_name f)
    | None => ""
    end in
  let fargs :=
    match tc_function tool_call with
    | Some f => opt_str (fn_arguments f)
    | None => ""
    end in
  acc_set i (mkToolCallAcc (acc_id entry)
                           (acc_name entry ++ fname)%string
                           (acc_arguments entry ++ fargs)%string) d.

Definition is_decode_error (e : exn) : bool :=
  match e with JSONDecodeError => true | _ => false end.

Section Streaming.
Context {rt : Runtime}.

(** The body of [for tool_call_data in accumulated_tool_calls.values()]. *)
Definition stream_tool_part (d : ToolCallAcc) : outcome (option Part) :=
  if negb (String.eqb (acc_name d) "") then
    args <- try_except
              (if negb (String.eqb (acc_arguments d) "")
               then loads (acc_arguments d) else Ok (JObj []))
              is_decode_error (Ok (JObj [])) ;;
    fc <- from_function_call (JStr (acc_name d)) args ;;
    Ok (Some (function_call_part (set_id fc (JStr (acc_id d)))))
  else Ok None.

Fixpoint stream_tool_parts (d : list (Z * ToolCallAcc)) : outcome (list Part) :=
  match d with
  | [] => Ok []
  | (_, a) :: d' =>
      p <- stream_tool_part a ;;
      ps <- stream_tool_parts d' ;;
      Ok (match p with Some p => p :: ps | None => ps end)
  end.

(** The [if choice.finish_reason:] block: what it yields, and the
    exception that interrupts it. *)
Definition on_finish (st : StreamState) (finish : string)
    : list LlmResponse * option exn :=
  let reason := _convert_finish_reason (Some finish) in
  let acc := accumulated_content st in
  let recovered : outcome (option Part) :=
    if negb (String.eqb acc "")
    then _try_parse_function_call_from_text acc true
    else Ok None in
  match recovered with
  | Raise e => ([], Some e)
  | Ok r =>
      let yielded :=
        match r with
        | Some p => [final_response [p] reason]
        | None => []
        end in
      let parts0 :=
        match r with
        | Some _ => []
        | None => if negb (String.eqb acc "") then [text_part acc] else []
        end in
      match stream_tool_parts (accumulated_tool_calls st) with
      | Raise e => (yielded, Some e)
      | Ok tool_parts =>
          let parts := parts0 ++ tool_parts in
          (yielded ++ match parts with
                      | [] => []
                      | _ => [final_response parts reason]
                      end, None)
      end
  end.

(** One iteration of [async for chunk in stream]: what it yields, the
    accumulators afterwards, and the exception it raised, if any. *)
Definition stream_chunk (st : StreamState) (chunk : Chunk)
    : list LlmResponse * StreamState * option exn :=
  match chunk with
  | StrChunk s =>
      ([partial_response s],
       mkStreamState (accumulated_content st ++ s)%string
                     (accumulated_tool_calls st),
       None)
  | ObjChunk [] => ([], st, None)
  | ObjChunk (choice :: _) =>
      let delta := choice_delta choice in
      let '(out1, acc1) :=
        if nonempty_str (delta_content delta) then
          let token := opt_str (delta_content delta) in
          let acc := (accumulated_content st ++ token)%string in
          (if negb (_looks_like_function_call_in_progress acc)
           then [partial_response token] else [], acc)
        else ([], accumulated_content st) in
      let tcs1 :=
        fold_left accumulate_tool_call (opt_list (delta_tool_calls delta))
                  (accumulated_tool_calls st) in
      let st1 := mkStreamState acc1 tcs1 in
      if nonempty_str (choice_finish_reason choice) then
        let '(out2, e) := on_finish st1 (opt_str (choice_finish_reason choice)) in
        (out1 ++ out2, st1, e)
      else (out1, st1, None)
  end.

(** The [except Exception] handler of [_stream_completion]. *)
Definition on_stream_error (st : StreamState) : list LlmResponse :=
  if negb (String.eqb (accumulated_content st) "")
  then [final_response [text_part (accumulated_content st)] STOP]
  else [].

Fixpoint run_stream (st : StreamState) (cs : list Chunk)
    (fail : option exn) : list LlmResponse :=
  match cs with
  | [] =>
      match fail with
      | Some _ => on_stream_error st
      | None => []
      end
  | c :: rest =>
      let '(outs, st', e) := stream_chunk st c in
      match e with
      | Some _ => outs ++ on_stream_error st'
      | None => outs ++ run_stream st' rest fail
      end
  end.

Definition _stream_completion (tr : Transport) (api_params : ApiParams)
    : list LlmResponse :=
  match create_stream tr api_params with
  | Raise _ => on_stream_error initial_state
  | Ok s => run_stream initial_state (chunks s) (failure s)
  end.

Definition _make_raw_http_request_async (tr : Transport)
    (api_params : ApiParams) : LlmResponse :=
  let api_params := set_stream api_params false in
  let has_function_responses := any_tool_message (ap_messages api_params) in
  let body : outcome LlmResponse :=
    response <- http_post tr api_params ;;
    let response_text := PyStr.strip response in
    if PyStr.startswith "data:" response_text then
      _parse_raw_streaming_response response_text has_function_responses
    else
      response_data <- loads response ;;
      Ok (_convert_raw_response_to_llm_response response_data
            has_function_responses)
  in
  match body with
  | Ok r => r
  | Raise e => error_response "ASYNC_RAW_HTTP_ERROR" (StrOf e)
  end.

(** [generate_content_async] as the list of responses it yields. *)
Definition generate_content_async (tr : Transport) (model : string)
    (llm_request : LlmRequest) (stream : bool) : list LlmResponse :=
  let llm_request :=
    mkLlmRequest (maybe_append_user_content (contents llm_request))
                 (config llm_request) in
  match build_api_params model llm_request stream with
  | Raise e => [error_response "TRANSFORMERS_API_ERROR" (StrOf e)]
  | Ok api_params =>
      if stream then _stream_completion tr api_params
      else [_make_raw_http_request_async tr (set_stream api_params false)]
  end.

End Streaming.

(* ================================================================== *)
(** ** A reference runtime

    A concrete [Runtime] on which the examples are evaluated. Its decoder
    covers the JSON the examples use: objects, arrays, strings with the
    one-character escapes, integers, [true], [false] and [null]; it
    rejects everything else. *)

Module Ref.

Definition is_ws (c : ascii) : bool :=
  let n := N_of_ascii c in
  ((n =? 32) || (n =? 9) || (n =? 10) || (n =? 13))%N.

Fixpoint skip_ws (s : string) : string :=
  match s with
  | EmptyString => EmptyString
  | String c s' => if is_ws c then skip_ws s' else s
  end.

Definition is_digit (c : ascii) : bool :=
  let n := N_of_ascii c in ((48 <=? n) && (n <=? 57))%N.

Definition digit_value (c : ascii) : Z := Z.of_N (N_of_ascii c) - 48.

Fixpoint read_digits (s : string) (acc : Z) : Z * string :=
  match s with
  | EmptyString => (acc, s)
  | String c s' =>
      if is_digit c then read_digits s' (10 * acc + digit_value c)
      else (acc, s)
  end.

Definition float_follows (s : string) : bool :=
  match s with
  | String c _ =>
      Ascii.eqb c "."%char || Ascii.eqb c "e"%char || Ascii.eqb c "E"%char
  | EmptyString => false
  end.

(** An integer without sign: [0], or digits that do not start with [0]. *)
Definition read_nat (s : string) : option (Z * string) :=
  match s with
  | String c s' =>
      if Ascii.eqb c "0"%char then
        if float_follows s' then None else Some (0, s')
      else if is_digit c then
        let '(n, r) := read_digits s 0 in
        if float_follows r then None else Some (n, r)
      else None
  | EmptyString => None
  end.

Definition unescape (c : ascii) : option ascii :=
  if Ascii.eqb c dquote then Some dquote
  else if Ascii.eqb c "\"%char then Some "\"%char
  else if Ascii.eqb c "/"%char then Some "/"%char
  else if Ascii.eqb c "n"%char then Some "010"%char
  else if Ascii.eqb c "r"%char then Some "013"%char
  else if Ascii.eqb c "t"%char then Some "009"%char
  else if Ascii.eqb c "b"%char then Some "008"%char
  else if Ascii.eqb c "f"%char then Some "012"%char
  else None.

(** The characters of a string literal after its opening quote, and what
    follows the closing quote. *)
Fixpoint read_string (s : string) : option (string * string) :=
  match s with
  | EmptyString => None
  | String c s' =>
      if Ascii.eqb c dquote then Some (EmptyString, s')
      else if Ascii.eqb c "\"%char then
        match s' with
        | String e s'' =>
            match unescape e, read_string s'' with
            | Some ch, Some (body, r) => Some (String ch body, r)
            | _, _ => None
            end
        | EmptyString => None
        end
      else if (N_of_ascii c <? 32)%N then None
      else match read_string s' with
           | Some (body, r) => Some (String c body, r)
           | None => None
           end
  end.

Definition literal (word : string) (v : json) (s : string)
    : option (json * string) :=
  if String.prefix word s then Some (v, PyStr.drop (String.length word) s)
  else None.

Fixpoint parse_value (fuel : nat) (s : string) : option (json * string) :=
  match fuel with
  | O => None
  | S f =>
      match s with
      | EmptyString => None
      | String c r =>
          if Ascii.eqb c "{"%char then
            match skip_ws r with
            | String c' r' =>
                if Ascii.eqb c' "}"%char then Some (JObj [], r')
                else parse_members f (skip_ws r) []
            | EmptyString => None
            end
          else if Ascii.eqb c "["%char then
            match skip_ws r with
            | String c' r' =>
                if Ascii.eqb c' "]"%char then Some (JArr [], r')
                else parse_elements f (skip_ws r) []
            | EmptyString => None
            end
          else if Ascii.eqb c dquote then
            match read_string r with
            | Some (body, r') => Some (JStr body, r')
            | None => None
            end
          else if Ascii.eqb c "-"%char then
            match read_nat r with
            | Some (n, r') => Some (JNum (- n), r')
            | None => None
            end
          else if is_digit c then
            match read_nat s with
            | Some (n, r') => Some (JNum n, r')
            | None => None
            end
          else
            match literal "true" (JBool true) s with
            | Some x => Some x
            | None =>
                match literal "false" (JBool false) s with
                | Some x => Some x
                | None => literal "null" JNull s
                end
            end
      end
  end

with parse_members (fuel : nat) (s : string) (acc : obj)
    : option (json * string) :=
  match fuel with
  | O => None
  | S f =>
      match s with
      | String c r =>
          if Ascii.eqb c dquote then
            match read_string r with
            | Some (key, r1) =>
                match skip_ws r1 with
                | String c2 r2 =>
                    if Ascii.eqb c2 ":"%char then
                      match parse_value f (skip_ws r2) with
                      | Some (v, r3) =>
                          let acc' := obj_set key v acc in
                          match skip_ws r3 with
                          | String c4 r4 =>
                              if Ascii.eqb c4 ","%char
                              then parse_members f (skip_ws r4) acc'
                              else if Ascii.eqb c4 "}"%char
                              then Some (JObj acc', r4)
                              else None
                          | EmptyString => None
                          end
                      | None => None
                      end
                    else None
                | EmptyString => None
                end
            | None => None
            end
          else None
      | EmptyString => None
      end
  end

with parse_elements (fuel : nat) (s : string) (acc : list json)
    : option (json * string) :=
  match fuel with
  | O => None
  | S f =>
      match parse_value f s with
      | Some (v, r1) =>
          match skip_ws r1 with
          | String c2 r2 =>
              if Ascii.eqb c2 ","%char
              then parse_elements f (skip_ws r2) (acc ++ [v])
              else if Ascii.eqb c2 "]"%char
              then Some (JArr (acc ++ [v]), r2)
              else None
          | EmptyString => None
          end
      | None => None
      end
  end.

Definition json_loads (s : string) : option json :=
  match parse_value (S (String.length s)) (skip_ws s) with
  | Some (v, r) =>
      match skip_ws r with
      | EmptyString => Some v
      | _ => None
      end
  | None => None
  end.

(** [json.dumps] with its defaults: [", "] and [": "] as separators,
    everything outside the printable ASCII range escaped. *)
Definition hex_digit (n : N) : ascii :=
  if (n <? 10)%N then ascii_of_N (48 + n) else ascii_of_N (87 + n).

Definition escape_char (c : ascii) : string :=
  let n := N_of_ascii c in
  let bs := String "\"%char EmptyString in
  if Ascii.eqb c dquote then (bs ++ String dquote EmptyString)%string
  else if Ascii.eqb c "\"%char then (bs ++ bs)%string
  else if (n =? 10)%N then (bs ++ "n")%string
  else if (n =? 13)%N then (bs ++ "r")%string
  else if (n =? 9)%N then (bs ++ "t")%string
  else if (n =? 8)%N then (bs ++ "b")%string
  else if (n =? 12)%N then (bs ++ "f")%string
  else if ((n <? 32) || (126 <? n))%N then
    (bs ++ "u00"
        ++ String (hex_digit (n / 16)) (String (hex_digit (n mod 16)) ""))%string
  else String c EmptyString.

Fixpoint escape (s : string) : string :=
  match s with
  | EmptyString => EmptyString
  | String c s' => (escape_char c ++ escape s')%string
  end.

Definition quoted (s : string) : string :=
  (String dquote (escape s) ++ String dquote EmptyString)%string.

Fixpoint sep_join (sep : string) (l : list string) : string :=
  match l with
  | [] => EmptyString
  | [x] => x
  | x :: l' => (x ++ sep ++ sep_join sep l')%string
  end.

Fixpoint json_dumps (v : json) : string :=
  match v with
  | JNull => "null"
  | JBool true => "true"
  | JBool false => "false"
  | JNum n => PyStr.of_Z n
  | JStr s => quoted s
  | JArr l =>
      ("[" ++ sep_join ", "
                ((fix items (l : list json) : list string :=
                    match l with
                    | [] => []
                    | x :: l' => json_dumps x :: items l'
                    end) l)
           ++ "]")%string
  | JObj o =>
      ("{" ++ sep_join ", "
                ((fix members (o : list (string * json)) : list string :=
                    match o with
                    | [] => []
                    | (k, x) :: o' =>
                        (quoted k ++ ": " ++ json_dumps x)%string :: members o'
                    end) o)
           ++ "}")%string
  end.

(** A deterministic stand-in for the built-in [hash], whose values change
    from one interpreter run to the next. *)
Fixpoint hash (s : string) : Z :=
  match s with
  | EmptyString => 7
  | String c s' => 31 * hash s' + Z.of_N (N_of_ascii c)
  end.

Definition b64_alphabet : string :=
  "ABCDEFGHIJKLMNOPQRSTUVWXYZabcdefghijklmnopqrstuvwxyz0123456789+/".

Definition b64_char (n : N) : ascii :=
  match String.get (N.to_nat n) b64_alphabet with
  | Some c => c
  | None => "="%char
  end.

Fixpoint b64encode (s : string) : string :=
  match s with
  | EmptyString => EmptyString
  | String a EmptyString =>
      let n := (N_of_ascii a * 65536)%N in
      String (b64_char (n / 262144))
        (String (b64_char ((n / 4096) mod 64)) "==")
  | String a (String b EmptyString) =>
      let n := (N_of_ascii a * 65536 + N_of_ascii b * 256)%N in
      String (b64_char (n / 262144))
        (String (b64_char ((n / 4096) mod 64))
           (String (b64_char ((n / 64) mod 64)) "="))
  | String a (String b (String c r)) =>
      let n := (N_of_ascii a * 65536 + N_of_ascii b * 256 + N_of_ascii c)%N in
      String (b64_char (n / 262144))
        (String (b64_char ((n / 4096) mod 64))
           (String (b64_char ((n / 64) mod 64))
              (String (b64_char (n mod 64)) (b64encode r))))
  end.

(** The framework's [_maybe_append_user_content]: a user turn is appended
    when the conversation is empty or does not end with one. *)
Definition maybe_append_user_content (cs : list Content) : list Content :=
  match List.rev cs with
  | [] =>
      [mkContent (Some "user")
         (Some [text_part
                  "Handle the requests as specified in the System Instruction."])]
  | last :: _ =>
      if negb (String.eqb (opt_str (role last)) "user") then
        cs ++ [mkContent (Some "user")
                 (Some [text_part
                          "Continue processing previous requests as instructed. Exit or provide a summary if no more outputs are needed."])]
      else cs
  end.

(** Single quotes stand for double quotes in the texts of the examples. *)
Fixpoint q (s : string) : string :=
  match s with
  | EmptyString => EmptyString
  | String c s' =>
      String (if Ascii.eqb c "'"%char then dquote else c) (q s')
  end.

End Ref.

Definition RefRuntime : Runtime :=
  {| json_loads := Ref.json_loads;
     json_dumps := Ref.json_dumps;
     hash := Ref.hash;
     b64encode := Ref.b64encode;
     maybe_append_user_content := Ref.maybe_append_user_content |}.

(** A transport that answers every non-streaming request with [body] and
    every streaming request with [s]. *)
Definition const_transport (s : Stream) (body : outcome string) : Transport :=
  mkTransport (fun _ => Ok s) (fun _ => body).

(* ================================================================== *)
(** ** Vocabulary of the specification *)

(** The function results of an entry, in part order. *)
Definition function_results (ps : list Part) : list FunctionResponse :=
  flat_map (fun p => match function_response p with
                     | Some fr => [fr]
                     | None => []
                     end) ps.

(** An entry that holds at least one function result. *)
Definition holds_function_result (c : Content) : Prop :=
  exists p, In p (opt_list (parts c)) /\ function_response p <> None.

Definition is_tool_message (m : Message) : Prop :=
  match m with
  | ToolMessage _ _ => True
  | ChatMessage _ _ _ => False
  end.

Section RequestVocabulary.
Context {rt : Runtime}.

(** The text under ["content"] is a string whose lower-cased form
    contains one of the keywords. *)
Definition mentions_keyword (c : MsgContent) : Prop :=
  exists s, c = CStr s
            /\ exists k, In k keywords
                         /\ PyStr.contains k (PyStr.lower s) = true.

(** The three conditions of the tool attachment policy. *)
Definition attach_condition (llm_request : LlmRequest) : Prop :=
  (exists t ts, _convert_tools llm_request = Some (t :: ts))
  /\ any_tool_message (request_messages llm_request) = false
  /\ mentions_keyword (last_content (request_messages llm_request)).

End RequestVocabulary.

(** A response is an error or finished with [STOP]. *)
Definition stop_or_error (r : LlmResponse) : Prop :=
  error_code r = None -> finish_reason r = Some STOP.

(** What a fragment adds to [content_parts]: nothing when it is empty. *)
Definition nonempty_fragment (f : string) : option json :=
  if String.eqb f "" then None else Some (JStr f).

(** The pattern starts, respectively ends, with a character that is not
    white space. *)
Definition first_nonspace (m : string) : bool :=
  match m with
  | String a _ => negb (PyStr.is_space a)
  | EmptyString => false
  end.

Fixpoint last_nonspace (m : string) : bool :=
  match m with
  | EmptyString => false
  | String c EmptyString => negb (PyStr.is_space c)
  | String _ m' => last_nonspace m'
  end.




(** The final responses among the responses yielded. *)
Definition finals (l : list LlmResponse) : list LlmResponse :=
  filter is_final l.

(** The chunk carries a finish signal. *)
Definition has_finish_signal (c : Chunk) : bool :=
  match c with
  | ObjChunk (choice :: _) => nonempty_str (choice_finish_reason choice)
  | _ => false
  end.

(** The accumulated tool-call fragments whose name is not empty. *)
Definition named_fragments (d : list (Z * ToolCallAcc))
    : list (Z * ToolCallAcc) :=
  filter (fun kv => negb (String.eqb (acc_name (snd kv)) "")) d.

(** One final response holding [ps], none when [ps] is empty. *)
Definition one_final_if_any (ps : list Part) (reason : FinishReason)
    : list LlmResponse :=
  match ps with
  | [] => []
  | _ => [final_response ps reason]
  end.

Section DecoderVocabulary.
Context {rt : Runtime}.

(** The arguments a tool call decodes to: [{}] for an empty or null
    argument string, else the object the string is the JSON text of. *)
Inductive decoded_arguments : json -> obj -> Prop :=
| arguments_empty : decoded_arguments (JStr "") []
| arguments_null : decoded_arguments JNull []
| arguments_json (s : string) (a : obj) :
    s <> "" -> json_loads s = Some (JObj a) ->
    decoded_arguments (JStr s) a.

(** How the decoder treats one entry of [tool_calls]: a well-formed entry
    gives a function-call part; an entry whose argument string is not
    JSON, or that lacks [function], [name] or [arguments], gives none. *)
Inductive tool_call_outcome : json -> option Part -> Prop :=
| tool_call_well_formed (t f : obj) (n : string) (a : json) (args : obj) :
    lookup "function" t = Some (JObj f) ->
    lookup "name" f = Some (JStr n) ->
    lookup "arguments" f = Some a ->
    decoded_arguments a args ->
    tool_call_outcome (JObj t)
      (Some (function_call_part
               (mkFunctionCall
                  (match lookup "id" t with Some i => i | None => JStr "" end)
                  (Some n) (Some args))))
| tool_call_bad_json (t f : obj) (n : json) (s : string) :
    lookup "function" t = Some (JObj f) ->
    lookup "name" f = Some n ->
    lookup "arguments" f = Some (JStr s) ->
    s <> "" -> json_loads s = None ->
    tool_call_outcome (JObj t) None
| tool_call_no_function (t : obj) :
    lookup "function" t = None ->
    tool_call_outcome (JObj t) None
| tool_call_no_name (t f : obj) :
    lookup "function" t = Some (JObj f) ->
    lookup "name" f = None ->
    tool_call_outcome (JObj t) None
| tool_call_no_arguments (t f : obj) (n : json) :
    lookup "function" t = Some (JObj f) ->
    lookup "name" f = Some n ->
    lookup "arguments" f = None ->
    tool_call_outcome (JObj t) None.

(** The parts kept from a list of outcomes. *)
Definition kept_parts (outs : list (option Part)) : list Part :=
  flat_map (fun o => match o with Some p => [p] | None => [] end) outs.

(** The [choices[0].delta.content] fragment of a frame of the streaming
    wire format: an object whose [choices], when present, is a list of
    objects, whose [delta], when present, is an object, and whose
    [content], when present, is a string or null. A frame with no
    fragment contributes the empty string; [None] is a value that is not
    such a frame. *)
Definition frame_fragment (v : json) : option string :=
  match v with
  | JObj o =>
      match lookup "choices" o with
      | None => Some ""
      | Some (JArr []) => Some ""
      | Some (JArr (JObj choice :: _)) =>
          match lookup "delta" choice with
          | None => Some ""
          | Some (JObj d) =>
              match lookup "content" d with
              | None => Some ""
              | Some JNull => Some ""
              | Some (JStr s) => Some s
              | Some _ => None
              end
          | Some _ => None
          end
      | Some _ => None
      end
  | _ => None
  end.

(** The fragment of one line of the body: a frame is a line that, once
    stripped, starts with ["data: "]; a frame whose payload is not JSON
    is skipped. *)
Definition line_fragment (line : string) : option string :=
  let line := PyStr.strip line in
  if PyStr.startswith "data: " line then
    match json_loads (PyStr.drop 6 line) with
    | None => Some ""
    | Some v => frame_fragment v
    end
  else Some "".

(** The fragments of all lines, when every parseable frame is a frame of
    the wire format. *)
Fixpoint body_fragments (lines : list string) : option (list string) :=
  match lines with
  | [] => Some []
  | line :: rest =>
      match line_fragment line, body_fragments rest with
      | Some f, Some fs => Some (f :: fs)
      | _, _ => None
      end
  end.

End DecoderVocabulary.

(** The three recognised shapes of a function call written as text. *)
Definition shape1 (o : obj) : bool :=
  match lookup "type" o with
  | Some (JStr ty) => String.eqb ty "function"
  | _ => false
  end && has_key "function" o && has_key "parameters" o.

Definition shape2 (o : obj) : bool :=
  has_key "name" o && has_key "parameters" o.

Definition shape3 (o : obj) : bool :=
  match lookup "function" o with
  | Some (JObj f) => has_key "name" f
  | _ => false
  end.


Section RecoveryVocabulary.
Context {rt : Runtime}.



End RecoveryVocabulary.

(** Inputs of the worked examples. *)
Definition example_user_turn : Content :=
  mkContent (Some "user")
            (Some [text_part "What's the weather in Singapore?"]).

Definition example_tool_turn : Content :=
  mkContent (Some "user")
    (Some [mkPart None None None None
             (Some (mkFunctionResponse (Some "call_1")
                      (JObj [("status", JStr "success")])));
           text_part "ignored";
           mkPart None None None None
             (Some (mkFunctionResponse (Some "call_2") JNull))]).

Definition get_weather_tool : Tool :=
  mkTool (Some [mkFunctionDeclaration (Some "get_weather")
                  (Some "Retrieves the current weather report.")
                  (Some (mkSchema (Some "OBJECT") None
                           (Some [("city",
                                   mkSchema (Some "STRING") None None None
                                            None None)])
                           None None (Some ["city"])))]).

Definition example_config : GenerateContentConfig :=
  mkConfig None (Some [get_weather_tool]) None None None None None None.

Definition example_request : LlmRequest :=
  mkLlmRequest [example_user_turn] example_config.

(** A user turn with a text and a picture. *)
Definition example_multimodal_request : LlmRequest :=
  mkLlmRequest
    [mkContent (Some "user")
       (Some [text_part "What is the weather like here?";
              mkPart None (Some (mkBlob (Some "image/png") (Some "Man")))
                     None None None])]
    example_config.

(** A completion cut by the token limit. *)
Definition example_length_payload : json :=
  JObj [("choices",
         JArr [JObj [("message",
                      JObj [("role", JStr "assistant");
                            ("content", JStr "Hi")]);
                     ("finish_reason", JStr "length")]])].

Definition example_params : ApiParams :=
  mkApiParams "meta-llama/Llama-3.2-1B-Instruct"
    [ChatMessage "user" (CStr "Hello?") None] false
    None None None None None None None None.

(** The body of the specification's end-to-end scenario:
    [data: {"choices":[{"delta":{"content":"Hello"}}]}]. *)
Definition hello_body : string :=
  Ref.q "data: {'choices':[{'delta':{'content':'Hello'}}]}".




(** The text of the specification's example:
    [{"name": "get_weather", "parameters": {"city": "Singapore"}}]. *)
Definition get_weather_text : string :=
  Ref.q "{'name': 'get_weather', 'parameters': {'city': 'Singapore'}}".


(** A chunk with a text token and, possibly, a finish reason. *)
Definition text_chunk (token : string) (finish : option string) : Chunk :=
  ObjChunk [mkChoice (mkDelta (Some token) None) finish].

(** One chunk that carries a function call written as text, a structured
    tool call and the finish signal. *)
Definition text_and_tool_call_chunk : Chunk :=
  ObjChunk
    [mkChoice
       (mkDelta (Some get_weather_text)
          (Some [mkToolCallDelta 0 (Some "call_9")
                   (Some (mkFunctionDelta (Some "get_current_time")
                            (Some (Ref.q "{'city': 'New York'}"))))]))
       (Some "tool_calls")].


(** The body of the scenario without the blank after the colon. *)
Definition hello_body_no_blank : string :=
  Ref.q "data:{'choices':[{'delta':{'content':'Hello'}}]}".

(* ================================================================== *)
(** ** Vocabulary of the further properties *)

(** The entry holds a function result (as a test). *)
Definition holds_function_result_b (c : Content) : bool :=
  existsb has_function_response (opt_list (parts c)).

(** The function calls of an entry, in part order. *)
Definition function_calls (ps : list Part) : list FunctionCall :=
  flat_map (fun p => match function_call p with
                     | Some fc => [fc]
                     | None => []
                     end) ps.

Definition is_text_item (it : ContentItem) : bool :=
  match it with TextItem _ => true | _ => false end.

(** All function declarations of the request, group after group. *)
Definition declarations (llm_request : LlmRequest)
    : list FunctionDeclaration :=
  flat_map (fun tool_config => opt_list (function_declarations tool_config))
           (opt_list (tools (config llm_request))).

(** No [null] at any depth of a JSON value. *)
Fixpoint json_no_null (v : json) : bool :=
  match v with
  | JNull => false
  | JArr l =>
      (fix all (l : list json) : bool :=
         match l with
         | [] => true
         | x :: l' => json_no_null x && all l'
         end) l
  | JObj o =>
      (fix all (o : list (string * json)) : bool :=
         match o with
         | [] => true
         | (_, x) :: o' => json_no_null x && all o'
         end) o
  | _ => true
  end.

Definition schema_type (s : Schema) : option string :=
  match s with mkSchema ty _ _ _ _ _ => ty end.

(** The keys a translated schema can have. *)
Definition schema_keys : list string :=
  ["type"; "description"; "properties"; "items"; "enum"].

(** Induction on schemas: a property that holds of a schema whenever it
    holds of its property schemas and of its item schema holds of all. *)
Section SchemaInduction.
Variable P : Schema -> Prop.
Hypothesis step :
  forall ty descr props its en req,
    match props with
    | Some ps => Forall (fun kv => P (snd kv)) ps
    | None => True
    end ->
    match its with Some i => P i | None => True end ->
    P (mkSchema ty descr props its en req).

Fixpoint Schema_induction (s : Schema) : P s :=
  match s with
  | mkSchema ty descr props its en req =>
      step ty descr props its en req
        (match props as o
               return match o with
                      | Some ps => Forall (fun kv => P (snd kv)) ps
                      | None => True
                      end
         with
         | Some ps =>
             (fix all (l : list (string * Schema))
                : Forall (fun kv => P (snd kv)) l :=
                match l with
                | [] => Forall_nil _
                | (k, s') :: l' =>
                    Forall_cons (k, s') (Schema_induction s') (all l')
                end) ps
         | None => I
         end)
        (match its as o
               return match o with Some i => P i | None => True end
         with
         | Some i => Schema_induction i
         | None => I
         end)
  end.

End SchemaInduction.

(** The text a chunk adds to the accumulated content. *)
Definition chunk_text (c : Chunk) : string :=
  match c with
  | StrChunk s => s
  | ObjChunk [] => ""
  | ObjChunk (choice :: _) => opt_str (delta_content (choice_delta choice))
  end.

(** The name and argument fragments a tool-call delta carries. *)
Definition fragment_name (tc : ToolCallDelta) : string :=
  match tc_function tc with
  | Some f => opt_str (fn_name f)
  | None => ""
  end.

Definition fragment_arguments (tc : ToolCallDelta) : string :=
  match tc_function tc with
  | Some f => opt_str (fn_arguments f)
  | None => ""
  end.

(** The deltas of a list that belong to index [i], in arrival order. *)
Definition fragments_of (i : Z) (tcs : list ToolCallDelta)
    : list ToolCallDelta :=
  filter (fun tc => tc_index tc =? i) tcs.

(** The entry rebuilt from the fragments of one index: the id of the
    first, the names and the argument strings joined in order. *)
Definition rebuilt_entry (fs : list ToolCallDelta) : option ToolCallAcc :=
  match fs with
  | [] => None
  | f :: _ =>
      Some (mkToolCallAcc (opt_str (tc_id f))
                          (PyStr.join (map fragment_name fs))
                          (PyStr.join (map fragment_arguments fs)))
  end.

(** The error codes of the adapter. *)
Definition error_codes : list string :=
  ["NO_CHOICES"; "NO_CONTENT"; "RAW_CONVERSION_ERROR";
   "ASYNC_RAW_HTTP_ERROR"; "TRANSFORMERS_API_ERROR"].

(** The three forms of response the adapter builds: an error with one of
    its codes, a partial text chunk, and a final response with at least
    one part. *)
Inductive well_formed_response : LlmResponse -> Prop :=
| wf_error (code : string) (msg : err_text) :
    In code error_codes -> well_formed_response (error_response code msg)
| wf_partial (t : string) : well_formed_response (partial_response t)
| wf_final (p : Part) (ps : list Part) (fr : FinishReason) :
    well_formed_response (final_response (p :: ps) fr).

Definition is_partial_text (r : LlmResponse) : Prop :=
  exists t, r = partial_response t.

Definition is_final_with_parts (r : LlmResponse) : Prop :=
  exists p ps fr, r = final_response (p :: ps) fr.

(** What the accumulated text gives when the stream breaks. *)
Definition salvaged_text (all : string) : list LlmResponse :=
  if String.eqb all "" then []
  else [final_response [text_part all] STOP].

(** A conversation with an assistant turn that calls a tool and the turn
    with the tool's result. *)
Definition example_call_turn : Content :=
  mkContent (Some "model")
    (Some [mkPart None None None
             (Some (mkFunctionCall (JStr "call_1") (Some "get_weather")
                      (Some [("city", JStr "Singapore")])))
             None]).

Definition example_tool_request : LlmRequest :=
  mkLlmRequest [example_user_turn; example_call_turn; example_tool_turn]
               example_config.

(* ================================================================== *)
(** ** Case-by-case readings of frames, tool calls and chunks *)

(** What the decoder of an event stream makes of the payload of one
    frame: a text fragment, nothing, or a value it cannot read (on which
    it raises). *)
Inductive frame_reading : Type :=
| Fragment (s : string)
| NoFragment
| Unreadable.

Definition holds_word (w : string) (l : list json) : bool :=
  existsb (fun x => Py.eq_str x w) l.

(** The [delta] of a choice: an object gives its [content] when that is a
    non-empty string, nothing when [content] is missing or false, and is
    unreadable when [content] is another true value; a list or a string
    that does not hold the word [content] gives nothing; anything else is
    unreadable. *)
Definition read_delta (d : json) : frame_reading :=
  match d with
  | JObj fields =>
      match lookup "content" fields with
      | None => NoFragment
      | Some c =>
          if Py.truthy c
          then match c with JStr s => Fragment s | _ => Unreadable end
          else NoFragment
      end
  | JArr l => if holds_word "content" l then Unreadable else NoFragment
  | JStr s => if PyStr.contains "content" s then Unreadable else NoFragment
  | _ => Unreadable
  end.

(** The first choice: an object gives what its [delta] gives, nothing
    when it has none; a list or a string that does not hold the word
    [delta] gives nothing; anything else is unreadable. *)
Definition read_choice (choice : json) : frame_reading :=
  match choice with
  | JObj fields =>
      match lookup "delta" fields with
      | None => NoFragment
      | Some d => read_delta d
      end
  | JArr l => if holds_word "delta" l then Unreadable else NoFragment
  | JStr s => if PyStr.contains "delta" s then Unreadable else NoFragment
  | _ => Unreadable
  end.

(** The value under [choices]: empty (a list, a string or an object)
    gives nothing; a list gives what its first element gives, a string
    what its first character gives; a non-empty object and anything
    without a length are unreadable. *)
Definition read_choices (cs : json) : frame_reading :=
  match cs with
  | JArr [] => NoFragment
  | JArr (choice :: _) => read_choice choice
  | JStr EmptyString => NoFragment
  | JStr (String c _) => read_choice (JStr (String c EmptyString))
  | JObj [] => NoFragment
  | _ => Unreadable
  end.

(** The payload: an object gives what its [choices] gives, nothing when
    it has none; a list or a string that does not hold the word [choices]
    gives nothing; anything else is unreadable. *)
Definition read_frame (v : json) : frame_reading :=
  match v with
  | JObj fields =>
      match lookup "choices" fields with
      | None => NoFragment
      | Some cs => read_choices cs
      end
  | JArr l => if holds_word "choices" l then Unreadable else NoFragment
  | JStr s => if PyStr.contains "choices" s then Unreadable else NoFragment
  | _ => Unreadable
  end.

Definition is_unreadable (r : frame_reading) : bool :=
  match r with Unreadable => true | _ => false end.

Definition fragments_of_readings (rs : list frame_reading) : list string :=
  flat_map (fun r => match r with Fragment s => [s] | _ => [] end) rs.





Section ReadingVocabulary.
Context {rt : Runtime}.

(** A line is a frame when, stripped, it starts with ["data: "]; a frame
    whose payload is not JSON, and a line that is no frame, give
    nothing. *)
Definition read_line (line : string) : frame_reading :=
  let line := PyStr.strip line in
  if PyStr.startswith "data: " line then
    match json_loads (PyStr.drop 6 line) with
    | None => NoFragment
    | Some v => read_frame v
    end
  else NoFragment.


(** The loop body of the decoder of an event stream agrees with a
    reading: a fragment is handed on, nothing is handed on, or the body
    raises an exception that is not caught, or hands on a value that is
    not a string, on which the final join raises. *)
Definition reads_as (r : frame_reading) (x : outcome (option json)) : Prop :=
  match r with
  | Fragment s => x = Ok (Some (JStr s))
  | NoFragment => x = Ok None
  | Unreadable =>
      (exists e, x = Raise e /\ is_decode_error e = false)
      \/ (exists c, x = Ok (Some c) /\ Py.is_str c = false)
  end.


End ReadingVocabulary.




(** An event stream whose text is a nested call with a list of
    parameters. *)
Definition nested_list_body : string :=
  Ref.q "data: {'choices':[{'delta':{'content':'{\'function\': {\'name\': \'f\', \'parameters\': [1]}}'}}]}".

(* ================================================================== *)
(** * Properties *)

(** ** The message encoder *)

Section EncoderProperties.
Context {rt : Runtime}.

Lemma convert_part_text_part (t : string) :
  convert_part (text_part t)
  = if String.eqb t "" then None else Some (TextItem t).
Proof.
  unfold convert_part, text_part; simpl.
  destruct (String.eqb t ""); reflexivity.
Qed.

Lemma convert_text_only (t : string) :
  _convert_parts_to_content [text_part t] = CStr t.
Proof.
  unfold _convert_parts_to_content; simpl.
  rewrite convert_part_text_part.
  destruct (String.eqb t "") eqn:E.
  - apply String.eqb_eq in E. now subst.
  - reflexivity.
Qed.

(** C7. A conversation that is one user turn holding one text part is
    encoded as the single message [{role: "user", content: t}] whose
    content is the bare string; in general a converted item list that is
    exactly one text item collapses to that string, and an empty one to
    the empty string. *)
Theorem single_user_text_collapses :
  (forall t : string,
      _convert_contents_to_messages
        [mkContent (Some "user") (Some [text_part t])]
      = [ChatMessage "user" (CStr t) None])
  /\ (forall (ps : list Part) (t : string),
         convert_parts ps = [TextItem t] ->
         _convert_parts_to_content ps = CStr t)
  /\ (forall ps : list Part,
         convert_parts ps = [] ->
         _convert_parts_to_content ps = CStr "").
Proof.
  split; [| split].
  - intros t. unfold _convert_contents_to_messages, convert_content. simpl.
    change (match convert_part (text_part t) with
            | Some it => [it] | None => [] end)
      with (convert_parts [text_part t]).
    fold (_convert_parts_to_content [text_part t]).
    now rewrite convert_text_only.
  - intros ps t H. unfold _convert_parts_to_content. now rewrite H.
  - intros ps H. unfold _convert_parts_to_content. now rewrite H.
Qed.

Lemma tool_messages_results (ps : list Part) :
  tool_messages ps
  = map (fun fr => ToolMessage (fr_id fr) (json_dumps (fr_response fr)))
        (function_results ps).
Proof.
  induction ps as [| p ps IH]; simpl; [reflexivity |].
  destruct (function_response p); simpl; now rewrite IH.
Qed.

Lemma holds_function_result_existsb (c : Content) :
  holds_function_result c ->
  existsb has_function_response (opt_list (parts c)) = true.
Proof.
  intros [p [Hin Hfr]]. apply existsb_exists. exists p. split; [exact Hin |].
  unfold has_function_response, is_some.
  destruct (function_response p); [reflexivity | contradiction].
Qed.

Lemma convert_contents_app (xs ys : list Content) :
  _convert_contents_to_messages (xs ++ ys)
  = _convert_contents_to_messages xs ++ _convert_contents_to_messages ys.
Proof. unfold _convert_contents_to_messages. apply flat_map_app. Qed.

(** C6. An entry that holds a function result is encoded as one
    [{role: "tool", tool_call_id, content}] message per function result,
    in part order, with the result's id and the JSON text of its
    response; whatever surrounds the entry in the conversation, these are
    all the messages it contributes, so no role/content message is
    emitted for it and its other parts produce nothing. *)
Theorem function_results_become_tool_messages :
  forall c : Content,
    holds_function_result c ->
    let msgs :=
      map (fun fr => ToolMessage (fr_id fr) (json_dumps (fr_response fr)))
          (function_results (opt_list (parts c))) in
    (forall before after : list Content,
        _convert_contents_to_messages (before ++ c :: after)
        = _convert_contents_to_messages before ++ msgs
          ++ _convert_contents_to_messages after)
    /\ Forall is_tool_message msgs
    /\ List.length msgs
       = List.length (filter has_function_response (opt_list (parts c))).
Proof.
  intros c H msgs. split; [| split].
  - intros before after.
    rewrite convert_contents_app. f_equal.
    change (c :: after) with ([c] ++ after).
    rewrite convert_contents_app. f_equal.
    unfold _convert_contents_to_messages; simpl. rewrite app_nil_r.
    unfold convert_content.
    rewrite (holds_function_result_existsb H).
    apply tool_messages_results.
  - subst msgs. apply Forall_forall. intros m Hm.
    apply in_map_iff in Hm. destruct Hm as [fr [<- _]]. exact I.
  - subst msgs. rewrite length_map.
    clear H. induction (opt_list (parts c)) as [| p ps IH]; [reflexivity |].
    simpl. unfold has_function_response at 1, is_some.
    destruct (function_response p); simpl; now rewrite IH.
Qed.

End EncoderProperties.

Lemma single_user_text_collapses_witness :
  (convert_parts (rt := RefRuntime) [text_part "hi"] = [TextItem "hi"]
   /\ _convert_parts_to_content (rt := RefRuntime) [text_part "hi"]
      = CStr "hi")
  /\ (convert_parts (rt := RefRuntime) [empty_part] = []
      /\ _convert_parts_to_content (rt := RefRuntime) [empty_part] = CStr "").
Proof.
  destruct (single_user_text_collapses (rt := RefRuntime)) as [_ [one none]].
  split; split.
  - reflexivity.
  - apply one. reflexivity.
  - reflexivity.
  - apply none. reflexivity.
Defined.

Lemma function_results_become_tool_messages_witness :
  holds_function_result example_tool_turn
  /\ _convert_contents_to_messages (rt := RefRuntime)
       ([example_user_turn] ++ example_tool_turn :: [])
     = [ChatMessage "user" (CStr "What's the weather in Singapore?") None;
        ToolMessage (Some "call_1") (Ref.q "{'status': 'success'}");
        ToolMessage (Some "call_2") "null"].
Proof.
  assert (H : holds_function_result example_tool_turn).
  { exists (mkPart None None None None
                   (Some (mkFunctionResponse (Some "call_2") JNull))).
    split; [simpl; auto | discriminate]. }
  split; [exact H |].
  destruct (function_results_become_tool_messages (rt := RefRuntime) H)
    as [around _].
  rewrite around. reflexivity.
Defined.

(* ================================================================== *)
(** ** The request orchestrator *)

Section RequestProperties.
Context {rt : Runtime}.

Lemma generation_params_keep_tools (p : ApiParams) (c : GenerateContentConfig) :
  ap_tools (_add_generation_params p c) = ap_tools p
  /\ ap_tool_choice (_add_generation_params p c) = ap_tool_choice p.
Proof. split; reflexivity. Qed.

Lemma keyword_gate_spec (s : string) :
  existsb (fun keyword => PyStr.contains keyword s) keywords = true
  <-> exists k, In k keywords /\ PyStr.contains k s = true.
Proof. apply existsb_exists. Qed.

Lemma nonempty_list_spec {A} (o : option (list A)) :
  nonempty_list o = true <-> exists x xs, o = Some (x :: xs).
Proof.
  destruct o as [[| x xs] |]; simpl; split; intros H;
    try discriminate; try reflexivity; try (now exists x, xs);
    destruct H as [y [ys H]]; discriminate.
Qed.

(** What [build_api_params] does when the three conditions hold. *)
Lemma build_with_tools (model : string) (req : LlmRequest) (stream : bool) :
  attach_condition req ->
  exists p, build_api_params model req stream = Ok p
            /\ ap_tools p = _convert_tools req
            /\ ap_tool_choice p = Some "auto".
Proof.
  intros [Ht [Hn [s [Hs Hk]]]].
  unfold build_api_params.
  apply nonempty_list_spec in Ht. rewrite Ht, Hn, Hs.
  cbn [bind content_lower].
  apply keyword_gate_spec in Hk. rewrite Hk.
  eexists. split; [reflexivity |]. split; reflexivity.
Qed.

(** What it does when one of them fails. *)
Lemma build_without_tools (model : string) (req : LlmRequest) (stream : bool) :
  ~ attach_condition req ->
  forall p, build_api_params model req stream = Ok p ->
            ap_tools p = None /\ ap_tool_choice p = None.
Proof.
  intros Hc p. unfold build_api_params.
  destruct (nonempty_list (_convert_tools req)) eqn:Ht.
  2:{ simpl. intros [= <-]. split; reflexivity. }
  destruct (any_tool_message (request_messages req)) eqn:Hn.
  { simpl. intros [= <-]. split; reflexivity. }
  destruct (last_content (request_messages req)) as [s | items] eqn:Hs;
    cbn [bind content_lower]; [| discriminate].
  destruct (existsb _ keywords) eqn:Hk; cbn [bind].
  - exfalso. apply Hc. split; [now apply nonempty_list_spec |].
    split; [exact Hn |]. exists s. split; [exact Hs |].
    now apply keyword_gate_spec.
  - intros [= <-]. split; reflexivity.
Qed.

(** C3. The request body carries [tools] and [tool_choice = "auto"]
    exactly when (a) the tool conversion produced a tool definition, (b) no
    message has role ["tool"], and (c) the lower-cased content of the last
    message contains a keyword; it then carries the converted tools, and
    when a condition fails a request body has neither key. *)
Theorem tools_attached_iff :
  forall (model : string) (req : LlmRequest) (stream : bool),
    ((exists p ts, build_api_params model req stream = Ok p
                   /\ ap_tools p = Some ts
                   /\ ap_tool_choice p = Some "auto")
     <-> attach_condition req)
    /\ (attach_condition req ->
        exists p, build_api_params model req stream = Ok p
                  /\ ap_tools p = _convert_tools req
                  /\ ap_tool_choice p = Some "auto")
    /\ (~ attach_condition req ->
        forall p, build_api_params model req stream = Ok p ->
                  ap_tools p = None /\ ap_tool_choice p = None).
Proof.
  intros model req stream. split; [| split].
  - split.
    + intros [p [ts [Hb [Ht _]]]].
      assert (D : attach_condition req \/ ~ attach_condition req).
      { unfold attach_condition, mentions_keyword.
        destruct (_convert_tools req) as [[| t ts'] |] eqn:E1;
          try (right; intros [[? [? ?]] _]; discriminate).
        destruct (any_tool_message (request_messages req)) eqn:E2;
          try (right; intros [_ [? _]]; discriminate).
        destruct (last_content (request_messages req)) as [s | items] eqn:E3.
        2:{ right. intros [_ [_ [s [? _]]]]. discriminate. }
        destruct (existsb (fun k => PyStr.contains k (PyStr.lower s)) keywords)
          eqn:E4.
        - left. split; [now exists t, ts' |]. split; [reflexivity |].
          exists s. split; [reflexivity |]. now apply keyword_gate_spec.
        - right. intros [_ [_ [s' [Hs' Hk]]]]. injection Hs' as <-.
          apply keyword_gate_spec in Hk. congruence. }
      destruct D as [D | D]; [exact D |].
      destruct (build_without_tools model stream D Hb) as [Hnone _].
      congruence.
    + intros Hc. destruct (build_with_tools model stream Hc) as [p [Hb [Ht Ha]]].
      destruct Hc as [[t [ts Hts]] _].
      exists p, (t :: ts). rewrite Ht. auto.
  - apply build_with_tools.
  - apply build_without_tools.
Qed.

(** C10. When tool definitions exist, no message has role ["tool"] and
    the content of the last message is a list of items rather than a
    string, the keyword gate raises on [.lower()] and the request is
    answered, whatever the transport and the dispatch mode, by the single
    error response [TRANSFORMERS_API_ERROR]. *)
Theorem structured_last_content_is_an_error :
  forall (tr : Transport) (model : string) (req : LlmRequest) (stream : bool),
    let req' := mkLlmRequest (maybe_append_user_content (contents req))
                             (config req) in
    (exists t ts, _convert_tools req' = Some (t :: ts)) ->
    any_tool_message (request_messages req') = false ->
    (exists items, last_content (request_messages req') = CList items) ->
    generate_content_async tr model req stream
    = [error_response "TRANSFORMERS_API_ERROR" (StrOf AttributeError)].
Proof.
  intros tr model req stream req' Ht Hn [items Hl].
  unfold generate_content_async. fold req'.
  unfold build_api_params.
  apply nonempty_list_spec in Ht. rewrite Ht, Hn, Hl. reflexivity.
Qed.

End RequestProperties.

Lemma tools_attached_iff_witness :
  attach_condition (rt := RefRuntime) example_request
  /\ exists p, build_api_params (rt := RefRuntime) "meta-llama/Llama-3.2-1B-Instruct"
                 example_request false = Ok p
               /\ ap_tools p = _convert_tools example_request
               /\ ap_tool_choice p = Some "auto".
Proof.
  assert (H : attach_condition (rt := RefRuntime) example_request).
  { split; [eexists; eexists; reflexivity |]. split; [reflexivity |].
    eexists. split; [reflexivity |].
    exists "weather". split; [simpl; auto | reflexivity]. }
  split; [exact H |].
  apply (proj1 (proj2 (tools_attached_iff (rt := RefRuntime)
                         "meta-llama/Llama-3.2-1B-Instruct"
                         example_request false))).
  exact H.
Defined.

Lemma structured_last_content_is_an_error_witness :
  generate_content_async (rt := RefRuntime)
    (const_transport (mkStream [] None) (Ok hello_body))
    "meta-llama/Llama-3.2-1B-Instruct" example_multimodal_request false
  = [error_response "TRANSFORMERS_API_ERROR" (StrOf AttributeError)].
Proof.
  apply (structured_last_content_is_an_error (rt := RefRuntime)).
  - eexists; eexists; reflexivity.
  - reflexivity.
  - eexists; reflexivity.
Defined.

(* ================================================================== *)
(** ** The non-streaming decoders *)

(** Inversion of a computation in the error monad that ended in [Ok]. *)
Ltac invert_ok H :=
  repeat match type of H with
         | bind ?m _ = Ok _ =>
             let E := fresh "E" in
             destruct m eqn:E; cbn [bind] in H; [| discriminate H]
         | (if ?b then _ else _) = Ok _ =>
             let E := fresh "E" in destruct b eqn:E
         | Raise _ = Ok _ => discriminate H
         end.

Section DecoderProperties.
Context {rt : Runtime}.

Lemma parse_raw_streaming_stop (response_text : string) (flag : bool)
    (r : LlmResponse) :
  _parse_raw_streaming_response response_text flag = Ok r -> stop_or_error r.
Proof.
  unfold _parse_raw_streaming_response. intros H. invert_ok H.
  - match type of H with
    | match ?x with _ => _ end = _ => destruct x
    end; injection H as <-; intros _; reflexivity.
  - injection H as <-. intros Hc. discriminate Hc.
Qed.

Lemma convert_raw_stop (response_data : json) (flag : bool) :
  stop_or_error (_convert_raw_response_to_llm_response response_data flag).
Proof.
  unfold _convert_raw_response_to_llm_response.
  match goal with |- stop_or_error (match ?b with _ => _ end) =>
    destruct b as [r |] eqn:H end.
  2:{ intros Hc. discriminate Hc. }
  invert_ok H;
    injection H as <-; intros Hc; first [discriminate Hc | reflexivity].
Qed.

Lemma make_raw_stop (tr : Transport) (p : ApiParams) :
  stop_or_error (_make_raw_http_request_async tr p).
Proof.
  unfold _make_raw_http_request_async.
  match goal with |- stop_or_error (match ?b with _ => _ end) =>
    destruct b as [r |] eqn:H end.
  2:{ intros Hc. discriminate Hc. }
  invert_ok H.
  - eapply parse_raw_streaming_stop. exact H.
  - injection H as <-. apply convert_raw_stop.
Qed.

(** C9. Every response without an error code that a non-streaming decode
    path returns (the raw request as a whole, the single-JSON decoder, the
    decoder of an SSE-shaped body) has finish reason [STOP], whatever the
    payload says: a payload whose choice has [finish_reason = "length"] is
    reported as [STOP], although the streaming mapping sends ["length"] to
    [MAX_TOKENS]. *)
Theorem non_streaming_finish_reason_is_stop :
  (forall (tr : Transport) (p : ApiParams),
      let r := _make_raw_http_request_async tr p in
      error_code r = None -> finish_reason r = Some STOP)
  /\ (forall (response_data : json) (flag : bool),
         let r := _convert_raw_response_to_llm_response response_data flag in
         error_code r = None -> finish_reason r = Some STOP)
  /\ (forall (response_text : string) (flag : bool) (r : LlmResponse),
         _parse_raw_streaming_response response_text flag = Ok r ->
         error_code r = None -> finish_reason r = Some STOP)
  /\ (forall flag : bool,
         _convert_raw_response_to_llm_response example_length_payload flag
         = final_response [text_part "Hi"] STOP)
  /\ _convert_finish_reason (Some "length") = MAX_TOKENS.
Proof.
  split; [| split; [| split; [| split]]].
  - intros tr p. apply make_raw_stop.
  - intros d flag. apply convert_raw_stop.
  - intros t flag r. apply parse_raw_streaming_stop.
  - intros [|]; reflexivity.
  - reflexivity.
Qed.

Lemma truthy_nonempty_str (s : string) :
  s <> "" -> Py.truthy (JStr s) = true.
Proof.
  intros H. simpl. destruct (String.eqb s "") eqn:E; [| reflexivity].
  apply String.eqb_eq in E. contradiction.
Qed.

Lemma decode_tool_call_outcome (tc : json) (o : option Part) :
  tool_call_outcome tc o -> decode_tool_call tc = Ok o.
Proof.
  intros H. destruct H as
      [t f n a args Hf Hn Ha Hd | t f n s Hf Hn Ha Hs Hl | t Hf
       | t f Hf Hn | t f n Hf Hn Ha];
    unfold decode_tool_call, Py.getitem, Py.get;
    rewrite ?Hf; cbn [bind]; rewrite ?Hn, ?Ha; cbn [bind try_except];
    try reflexivity.
  - destruct Hd as [| | s a Hs Hl].
    + reflexivity.
    + reflexivity.
    + rewrite (truthy_nonempty_str Hs). cbn [bind loads_value].
      unfold loads. rewrite Hl. reflexivity.
  - rewrite (truthy_nonempty_str Hs). cbn [bind loads_value].
    unfold loads. rewrite Hl. reflexivity.
Qed.

Lemma decode_tool_calls_outcomes (tcs : list json) (outs : list (option Part)) :
  Forall2 tool_call_outcome tcs outs ->
  decode_tool_calls tcs = Ok (kept_parts outs).
Proof.
  induction 1 as [| tc o tcs outs H _ IH]; [reflexivity |].
  cbn [decode_tool_calls]. rewrite (decode_tool_call_outcome H), IH.
  destruct o; reflexivity.
Qed.






Lemma join_values_strings (l : list string) :
  join_values (map JStr l) = Ok (PyStr.join l).
Proof.
  induction l as [| x l IH]; [reflexivity |].
  cbn [map join_values]. rewrite IH. reflexivity.
Qed.

Lemma sse_line_fragment_spec (line f : string) :
  line_fragment line = Some f ->
  sse_line_fragment line = Ok (nonempty_fragment f).
Proof.
  unfold line_fragment, sse_line_fragment, loads, nonempty_fragment.
  destruct (PyStr.startswith "data: " (PyStr.strip line)).
  2:{ intros [= <-]. reflexivity. }
  destruct (json_loads (PyStr.drop 6 (PyStr.strip line))) as [v |].
  2:{ intros [= <-]. reflexivity. }
  cbn [bind]. unfold frame_fragment.
  destruct v as [| | | | | o]; try discriminate.
  unfold Py.contains, Py.getitem, has_key.
  destruct (lookup "choices" o) as [cs |].
  2:{ intros [= <-]. reflexivity. }
  destruct cs as [| | | | l |]; try discriminate.
  destruct l as [| choice l].
  { intros [= <-]. reflexivity. }
  destruct choice as [| | | | | ch]; try discriminate.
  cbn [bind Py.len List.length Py.getitem0 Py.contains].
  unfold Py.getitem, has_key.
  destruct (lookup "delta" ch) as [d |].
  2:{ intros [= <-]. reflexivity. }
  destruct d as [| | | | | d]; try discriminate.
  cbn [bind Py.contains]. unfold has_key.
  destruct (lookup "content" d) as [c |].
  2:{ intros [= <-]. reflexivity. }
  destruct c as [| | | s | |]; try discriminate; intros [= <-].
  - reflexivity.
  - cbn. destruct (String.eqb s ""); reflexivity.
Qed.

Lemma sse_content_parts_spec (lines : list string) (fs : list string) :
  body_fragments lines = Some fs ->
  exists kept,
    sse_content_parts lines = Ok (map JStr kept)
    /\ PyStr.join kept = PyStr.join fs.
Proof.
  revert fs. induction lines as [| line lines IH]; intros fs.
  - intros [= <-]. exists []. split; reflexivity.
  - cbn [body_fragments].
    destruct (line_fragment line) as [f |] eqn:Hf; [| discriminate].
    destruct (body_fragments lines) as [fs' |]; [| discriminate].
    intros [= <-]. destruct (IH fs' eq_refl) as [kept [Hk Hj]].
    cbn [sse_content_parts]. rewrite (sse_line_fragment_spec _ Hf), Hk.
    unfold nonempty_fragment. destruct (String.eqb f "") eqn:E.
    + apply String.eqb_eq in E. subst f. exists kept. split; [reflexivity |].
      exact Hj.
    + exists (f :: kept). split; [reflexivity |].
      unfold PyStr.join in *. cbn [fold_right]. now rewrite Hj.
Qed.

(** The decoder of an SSE-shaped body on frames of the wire format. *)
Lemma parse_raw_streaming_spec (response_text : string) (flag : bool)
    (fs : list string) :
  body_fragments (PyStr.split_nl response_text) = Some fs ->
  _parse_raw_streaming_response response_text flag
  = if String.eqb (PyStr.join fs) ""
    then Ok (error_response "NO_CONTENT"
               (Literal "No content found in streaming response"))
    else
      r <- _try_parse_function_call_from_text (PyStr.join fs) (negb flag) ;;
      Ok (match r with
          | Some p => final_response [p] STOP
          | None => final_response [text_part (PyStr.join fs)] STOP
          end).
Proof.
  intros H. destruct (sse_content_parts_spec _ H) as [kept [Hk Hj]].
  unfold _parse_raw_streaming_response.
  rewrite Hk. cbn [bind]. rewrite join_values_strings. cbn [bind].
  rewrite Hj. destruct (String.eqb (PyStr.join fs) ""); [reflexivity |].
  cbn [negb].
  destruct (_try_parse_function_call_from_text (PyStr.join fs) (negb flag))
    as [[p |] |]; reflexivity.
Qed.

Ltac unreadable_raises :=
  left; eexists; split; reflexivity.

(** What the loop body does with the first choice of a frame. *)
Lemma choice_reading (choice : json) :
  reads_as (read_choice choice)
    (has_delta <- Py.contains "delta" choice ;;
     has_content <- (if has_delta
                     then (d <- Py.getitem choice "delta" ;;
                           Py.contains "content" d)
                     else Ok false) ;;
     if has_content then
       d <- Py.getitem choice "delta" ;;
       c <- Py.getitem d "content" ;;
       if Py.truthy c then Ok (Some c) else Ok None
     else Ok None).
Proof.
  unfold read_choice, read_delta, holds_word.
  destruct choice as [| b | n | s | l | fields]; cbn [Py.contains bind];
    try unreadable_raises.
  - destruct (PyStr.contains "delta" s); [unreadable_raises | reflexivity].
  - destruct (existsb (fun x => Py.eq_str x "delta") l);
      [unreadable_raises | reflexivity].
  - unfold has_key. cbn [Py.getitem].
    destruct (lookup "delta" fields) as [d |]; [| reflexivity].
    cbn [bind].
    destruct d as [| b | n | s | l | dfields]; cbn [Py.contains bind];
      try unreadable_raises.
    + destruct (PyStr.contains "content" s);
        [unreadable_raises | reflexivity].
    + destruct (existsb (fun x => Py.eq_str x "content") l);
        [unreadable_raises | reflexivity].
    + unfold has_key. cbn [Py.getitem].
      destruct (lookup "content" dfields) as [c |]; [| reflexivity].
      cbn [bind]. destruct (Py.truthy c) eqn:Tc; [| reflexivity].
      destruct c; try reflexivity;
        right; eexists; split; reflexivity.
Qed.

Lemma sse_line_fragment_reading (line : string) :
  reads_as (read_line line) (sse_line_fragment line).
Proof.
  unfold read_line, sse_line_fragment, loads.
  destruct (PyStr.startswith "data: " (PyStr.strip line)); [| reflexivity].
  destruct (json_loads (PyStr.drop 6 (PyStr.strip line))) as [v |];
    [| reflexivity].
  cbn [bind].
  assert (T : forall r x, reads_as r x ->
                reads_as r (try_except x
                              (fun e => match e with
                                        | JSONDecodeError => true
                                        | _ => false
                                        end)
                              (Ok None))).
  { intros r x. destruct r as [s | |]; cbn [reads_as].
    - intros ->. reflexivity.
    - intros ->. reflexivity.
    - intros [[e [-> He]] | [c [-> Hc]]].
      + left. exists e. cbn [try_except].
        change (match e with JSONDecodeError => true | _ => false end)
          with (is_decode_error e).
        split; [| exact He]. now rewrite He.
      + right. exists c. split; [reflexivity | exact Hc]. }
  apply T. clear T.
  unfold read_frame, read_choices, holds_word.
  destruct v as [| b | n | s | l | fields]; cbn [Py.contains bind];
    try unreadable_raises.
  - destruct (PyStr.contains "choices" s); [unreadable_raises | reflexivity].
  - destruct (existsb (fun x => Py.eq_str x "choices") l);
      [unreadable_raises | reflexivity].
  - unfold has_key. cbn [Py.getitem].
    destruct (lookup "choices" fields) as [cs |]; [| reflexivity].
    cbn [bind].
    destruct cs as [| b | n | s | l | o]; cbn [Py.len bind];
      try unreadable_raises.
    + destruct s as [| c s]; [reflexivity |].
      apply (choice_reading (JStr (String c EmptyString))).
    + destruct l as [| choice l]; [reflexivity |].
      apply (choice_reading choice).
    + destruct o as [| kv o]; [reflexivity |]. unreadable_raises.
Qed.

Lemma content_parts_readable (lines : list string) :
  existsb is_unreadable (map read_line lines) = false ->
  sse_content_parts lines
  = Ok (map JStr (fragments_of_readings (map read_line lines))).
Proof.
  induction lines as [| line lines IH]; [reflexivity |].
  cbn [map existsb]. intros H. apply orb_false_iff in H. destruct H as [H1 H2].
  cbn [sse_content_parts]. rewrite (IH H2).
  pose proof (sse_line_fragment_reading line) as R.
  destruct (read_line line) as [s | |]; [| | discriminate H1];
    cbn [reads_as] in R; rewrite R; reflexivity.
Qed.

Lemma content_parts_unreadable (lines : list string) :
  existsb is_unreadable (map read_line lines) = true ->
  (exists e, sse_content_parts lines = Raise e)
  \/ (exists l, sse_content_parts lines = Ok l
                /\ join_values l = Raise TypeError).
Proof.
  induction lines as [| line lines IH]; [discriminate |].
  cbn [map existsb sse_content_parts]. intros H.
  pose proof (sse_line_fragment_reading line) as R.
  destruct (read_line line) as [s | |]; cbn [reads_as] in R.
  - rewrite R. cbn [bind].
    destruct (IH H) as [[e He] | [l [Hl Hj]]].
    + left. exists e. now rewrite He.
    + right. exists (JStr s :: l). rewrite Hl. split; [reflexivity |].
      cbn [join_values]. now rewrite Hj.
  - rewrite R. cbn [bind].
    destruct (IH H) as [[e He] | [l [Hl Hj]]].
    + left. exists e. now rewrite He.
    + right. exists l. rewrite Hl. split; [reflexivity | exact Hj].
  - destruct R as [[e [He _]] | [c [Hc Hs]]].
    + left. exists e. now rewrite He.
    + rewrite Hc. cbn [bind].
      destruct (sse_content_parts lines) as [tl | e].
      * right. exists (c :: tl). split; [reflexivity |].
        destruct c; first [discriminate Hs | reflexivity].
      * left. exists e. reflexivity.
Qed.

Lemma parse_raw_streaming_unreadable (response_text : string) (flag : bool) :
  existsb is_unreadable (map read_line (PyStr.split_nl response_text)) = true ->
  exists e, _parse_raw_streaming_response response_text flag = Raise e.
Proof.
  intros H. unfold _parse_raw_streaming_response.
  destruct (content_parts_unreadable _ H) as [[e He] | [l [Hl Hj]]].
  - exists e. now rewrite He.
  - exists TypeError. rewrite Hl. cbn [bind]. now rewrite Hj.
Qed.

Lemma parse_raw_streaming_readable (response_text : string) (flag : bool) :
  existsb is_unreadable (map read_line (PyStr.split_nl response_text)) = false ->
  let full :=
    PyStr.join (fragments_of_readings
                  (map read_line (PyStr.split_nl response_text))) in
  _parse_raw_streaming_response response_text flag
  = if String.eqb full ""
    then Ok (error_response "NO_CONTENT"
               (Literal "No content found in streaming response"))
    else
      r <- _try_parse_function_call_from_text full (negb flag) ;;
      Ok (match r with
          | Some p => final_response [p] STOP
          | None => final_response [text_part full] STOP
          end).
Proof.
  intros H full. unfold _parse_raw_streaming_response.
  rewrite (content_parts_readable _ H). cbn [bind].
  rewrite join_values_strings. cbn [bind]. fold full.
  destruct (String.eqb full ""); [reflexivity |]. cbn [negb].
  destruct (_try_parse_function_call_from_text full (negb flag))
    as [[p |] |]; reflexivity.
Qed.

(** C5, as the code has it. When the stripped body of the response starts
    with ["data:"], the body is decoded as an event stream and never as one
    JSON document. Every line is read on its own, as [read_line] says: a
    line that is no frame (stripped, it does not start with ["data: "]),
    a frame whose payload is not JSON and a frame without a
    [choices[0].delta.content] that is true give nothing; a frame whose
    content is a non-empty string gives that fragment; any other JSON
    payload is unreadable. If some line is unreadable, the response is the
    error [ASYNC_RAW_HTTP_ERROR]. Otherwise the fragments are concatenated
    in line order: an empty concatenation gives the error [NO_CONTENT];
    on a non-empty one recovery is tried, and the response is final with
    finish reason [STOP] and holds the recovered function-call part when
    recovery yields one, the concatenated text when it yields none, and
    is the error [ASYNC_RAW_HTTP_ERROR] when recovery raises. *)
Theorem sse_shaped_body_is_reduced :
  forall (tr : Transport) (p : ApiParams) (body : string),
    http_post tr (set_stream p false) = Ok body ->
    PyStr.startswith "data:" (PyStr.strip body) = true ->
    let readings := map read_line (PyStr.split_nl (PyStr.strip body)) in
    let full := PyStr.join (fragments_of_readings readings) in
    let allow := negb (any_tool_message (ap_messages p)) in
    let r := _make_raw_http_request_async tr p in
    (existsb is_unreadable readings = true ->
     exists e, r = error_response "ASYNC_RAW_HTTP_ERROR" (StrOf e))
    /\ (existsb is_unreadable readings = false ->
        (full = "" ->
         r = error_response "NO_CONTENT"
               (Literal "No content found in streaming response"))
        /\ (full <> "" ->
            forall part,
              _try_parse_function_call_from_text full allow = Ok (Some part) ->
              r = final_response [part] STOP)
        /\ (full <> "" ->
            _try_parse_function_call_from_text full allow = Ok None ->
            r = final_response [text_part full] STOP)
        /\ (full <> "" ->
            forall e,
              _try_parse_function_call_from_text full allow = Raise e ->
              r = error_response "ASYNC_RAW_HTTP_ERROR" (StrOf e))).
Proof.
  intros tr p body Hpost Hdata readings full allow r.
  assert (Hr : r = match _parse_raw_streaming_response (PyStr.strip body)
                           (any_tool_message (ap_messages p)) with
                   | Ok r => r
                   | Raise e => error_response "ASYNC_RAW_HTTP_ERROR" (StrOf e)
                   end).
  { subst r. unfold _make_raw_http_request_async.
    rewrite Hpost. cbn [bind]. rewrite Hdata. reflexivity. }
  split.
  - intros H.
    destruct (parse_raw_streaming_unreadable _ (any_tool_message (ap_messages p)) H)
      as [e He].
    exists e. rewrite Hr, He. reflexivity.
  - intros H.
    pose proof (parse_raw_streaming_readable _ (any_tool_message (ap_messages p)) H)
      as P.
    cbn zeta in P. fold readings in P. fold full in P. fold allow in P.
    rewrite P in Hr. clear P.
    split; [| split; [| split]].
    + intros E. rewrite Hr, E. reflexivity.
    + intros E part Hp. rewrite Hr.
      destruct (String.eqb full "") eqn:E'.
      * apply String.eqb_eq in E'. contradiction.
      * rewrite Hp. reflexivity.
    + intros E Hp. rewrite Hr.
      destruct (String.eqb full "") eqn:E'.
      * apply String.eqb_eq in E'. contradiction.
      * rewrite Hp. reflexivity.
    + intros E e Hp. rewrite Hr.
      destruct (String.eqb full "") eqn:E'.
      * apply String.eqb_eq in E'. contradiction.
      * rewrite Hp. reflexivity.
Qed.
End DecoderProperties.

Lemma non_streaming_finish_reason_is_stop_witness :
  (error_code (_make_raw_http_request_async (rt := RefRuntime)
                 (const_transport (mkStream [] None) (Ok hello_body))
                 example_params) = None
   /\ finish_reason (_make_raw_http_request_async (rt := RefRuntime)
                       (const_transport (mkStream [] None) (Ok hello_body))
                       example_params) = Some STOP)
  /\ (error_code (_convert_raw_response_to_llm_response (rt := RefRuntime)
                    example_length_payload false) = None
      /\ finish_reason (_convert_raw_response_to_llm_response
                          (rt := RefRuntime) example_length_payload false)
         = Some STOP)
  /\ (_parse_raw_streaming_response (rt := RefRuntime) hello_body false
      = Ok (final_response [text_part "Hello"] STOP)
      /\ finish_reason (final_response [text_part "Hello"] STOP) = Some STOP).
Proof.
  destruct (non_streaming_finish_reason_is_stop (rt := RefRuntime))
    as [raw [single [sse _]]].
  split; [| split].
  - split; [reflexivity | apply raw; reflexivity].
  - split; [reflexivity | apply single; reflexivity].
  - split; [reflexivity | apply (sse hello_body false); reflexivity].
Defined.



Lemma sse_shaped_body_is_reduced_witness :
  _make_raw_http_request_async (rt := RefRuntime)
    (const_transport (mkStream [] None) (Ok hello_body)) example_params
  = final_response [text_part "Hello"] STOP
  /\ _make_raw_http_request_async (rt := RefRuntime)
       (const_transport (mkStream [] None) (Ok nested_list_body))
       example_params
     = error_response "ASYNC_RAW_HTTP_ERROR" (StrOf ValidationError).
Proof.
  split.
  - destruct (proj2 (@sse_shaped_body_is_reduced RefRuntime
                       (const_transport (mkStream [] None) (Ok hello_body))
                       example_params hello_body eq_refl eq_refl) eq_refl)
      as [_ [_ [text_kept _]]].
    apply text_kept; [discriminate | reflexivity].
  - destruct (proj2 (@sse_shaped_body_is_reduced RefRuntime
                       (const_transport (mkStream [] None)
                          (Ok nested_list_body))
                       example_params nested_list_body eq_refl eq_refl)
                    eq_refl)
      as [_ [_ [_ raised]]].
    apply raised; [discriminate | reflexivity].
Defined.

(** A line that starts with ["data:"] without the blank is not a frame:
    the body is taken for an event stream and nothing is read from it. *)
Example frame_needs_blank :
  _make_raw_http_request_async (rt := RefRuntime)
    (const_transport (mkStream [] None) (Ok hello_body_no_blank))
    example_params
  = error_response "NO_CONTENT"
      (Literal "No content found in streaming response").
Proof. reflexivity. Qed.

(** The body [data: 5] starts with ["data:"] and its only frame holds the
    JSON number 5, which has no content fragment; the response is not
    [NO_CONTENT] but the error of the raw request as a whole. *)
Lemma sse_shaped_body_counterexample :
  PyStr.startswith "data:" (PyStr.strip "data: 5") = true
  /\ json_loads (Runtime := RefRuntime) (PyStr.drop 6 "data: 5")
     = Some (JNum 5)
  /\ _make_raw_http_request_async (rt := RefRuntime)
       (const_transport (mkStream [] None) (Ok "data: 5")) example_params
     = error_response "ASYNC_RAW_HTTP_ERROR" (StrOf TypeError)
  /\ _make_raw_http_request_async (rt := RefRuntime)
       (const_transport (mkStream [] None) (Ok "data: 5")) example_params
     <> error_response "NO_CONTENT"
          (Literal "No content found in streaming response").
Proof.
  split; [reflexivity |]. split; [reflexivity |].
  split; [reflexivity | discriminate].
Qed.

(* ================================================================== *)
(** ** Heuristic recovery of function calls *)

Section RecoveryProperties.
Context {rt : Runtime}.








End RecoveryProperties.



(* ================================================================== *)
(** ** Facts about strings *)

Module PyStrFacts.
Import PyStr.

Lemma prefix_nil (m : string) : String.prefix m "" = true -> m = "".
Proof. destruct m; [reflexivity | discriminate]. Qed.

Lemma prefix_empty (x : string) : String.prefix "" x = true.
Proof. destruct x; reflexivity. Qed.

Lemma prefix_app (m x t : string) :
  String.prefix m x = true -> String.prefix m (x ++ t) = true.
Proof.
  revert m. induction x as [| c x IH]; intros m H.
  - apply prefix_nil in H. subst m. apply prefix_empty.
  - destruct m as [| a m]; [reflexivity |]. simpl in *.
    destruct (ascii_dec a c); [now apply IH | discriminate].
Qed.

Lemma prefix_contains (m x : string) :
  String.prefix m x = true -> contains m x = true.
Proof. intros H. destruct x; cbn [contains]; rewrite H; reflexivity. Qed.

Lemma contains_app (m x t : string) :
  contains m x = true -> contains m (x ++ t) = true.
Proof.
  induction x as [| c x IH]; intros H.
  - simpl in H. rewrite orb_false_r in H. apply prefix_nil in H. subst m.
    apply prefix_contains, prefix_empty.
  - cbn [contains append] in *. apply orb_true_iff in H.
    apply orb_true_iff. destruct H as [H | H].
    + left. now apply (@prefix_app m (String c x) t).
    + right. now apply IH.
Qed.

Lemma contains_lstrip (m x : string) :
  first_nonspace m = true -> contains m (lstrip x) = contains m x.
Proof.
  intros Hm. induction x as [| c x IH]; [reflexivity |].
  cbn [lstrip]. destruct (is_space c) eqn:Hc; [| reflexivity].
  rewrite IH. cbn [contains].
  destruct m as [| a m]; [discriminate |]. simpl.
  destruct (ascii_dec a c) as [-> |]; [| reflexivity].
  simpl in Hm. rewrite Hc in Hm. discriminate.
Qed.

Lemma last_nonspace_tail (a : ascii) (m : string) :
  last_nonspace (String a m) = true -> m <> "" -> last_nonspace m = true.
Proof. destruct m; [contradiction | trivial]. Qed.

(** A pattern that ends with a visible character is no prefix of white
    space. *)
Lemma prefix_of_blank (m x : string) :
  last_nonspace m = true -> rstrip x = "" -> String.prefix m x = false.
Proof.
  revert m. induction x as [| c x IH]; intros m Hm Hx.
  - destruct m; [discriminate | reflexivity].
  - cbn [rstrip] in Hx.
    destruct (rstrip x) eqn:Hr; [| discriminate].
    destruct (is_space c) eqn:Hc; [| discriminate].
    destruct m as [| a m]; [discriminate |]. simpl.
    destruct (ascii_dec a c) as [-> |]; [| reflexivity].
    destruct m as [| b m].
    + simpl in Hm. rewrite Hc in Hm. discriminate.
    + apply IH; [exact Hm | reflexivity].
Qed.

Lemma prefix_rstrip (m x : string) :
  last_nonspace m = true ->
  String.prefix m (rstrip x) = String.prefix m x.
Proof.
  revert m. induction x as [| c x IH]; intros m Hm; [reflexivity |].
  destruct m as [| a m]; [discriminate |].
  cbn [rstrip]. destruct (rstrip x) as [| b r] eqn:Hr.
  - destruct (is_space c) eqn:Hc.
    + symmetry. apply prefix_of_blank; [exact Hm |].
      cbn [rstrip]. now rewrite Hr, Hc.
    + simpl. destruct (ascii_dec a c); [| reflexivity].
      destruct m as [| b m]; [now rewrite !prefix_empty |].
      symmetry. apply prefix_of_blank; [exact Hm | exact Hr].
  - simpl. destruct (ascii_dec a c); [| reflexivity].
    destruct m as [| b' m]; [now rewrite !prefix_empty |].
    rewrite <- (IH (String b' m) Hm). reflexivity.
Qed.

Lemma contains_rstrip (m x : string) :
  last_nonspace m = true -> contains m (rstrip x) = contains m x.
Proof.
  intros Hm. induction x as [| c x IH]; [reflexivity |].
  cbn [contains]. rewrite <- IH, <- (@prefix_rstrip m (String c x) Hm).
  cbn [rstrip]. destruct (rstrip x) as [| b r] eqn:Hr.
  - destruct (is_space c); cbn [contains];
      [destruct (String.prefix m ""); reflexivity | reflexivity].
  - reflexivity.
Qed.

Lemma contains_strip (m x : string) :
  first_nonspace m = true -> last_nonspace m = true ->
  contains m (strip x) = contains m x.
Proof.
  intros Hf Hl. unfold strip.
  now rewrite (@contains_rstrip m _ Hl), (@contains_lstrip m x Hf).
Qed.

End PyStrFacts.

(* ================================================================== *)
(** ** The streaming reconstructor *)

Section StreamingProperties.
Context {rt : Runtime}.

Lemma stream_tool_parts_length (d : list (Z * ToolCallAcc)) (ps : list Part) :
  stream_tool_parts d = Ok ps ->
  List.length ps = List.length (named_fragments d).
Proof.
  revert ps. induction d as [| [i a] d IH]; intros ps H.
  - injection H as <-. reflexivity.
  - cbn [stream_tool_parts] in H.
    destruct (stream_tool_part a) as [p |] eqn:Hp; [| discriminate].
    destruct (stream_tool_parts d) as [ps' |]; [| discriminate].
    cbn [bind] in H. injection H as <-.
    specialize (IH ps' eq_refl).
    unfold stream_tool_part in Hp. cbn [named_fragments filter snd].
    destruct (negb (String.eqb (acc_name a) "")).
    + invert_ok Hp. injection Hp as <-. cbn [List.length].
      now rewrite IH.
    + injection Hp as <-. exact IH.
Qed.

(** The finish block without an exception: what it yields. *)
Lemma on_finish_ok (st : StreamState) (finish : string)
    (outs : list LlmResponse) :
  on_finish st finish = (outs, None) ->
  let reason := _convert_finish_reason (Some finish) in
  let acc := accumulated_content st in
  exists (r : option Part) (tool_parts : list Part),
    (if String.eqb acc "" then Ok None
     else _try_parse_function_call_from_text acc true) = Ok r
    /\ stream_tool_parts (accumulated_tool_calls st) = Ok tool_parts
    /\ outs = match r with
              | Some p =>
                  final_response [p] reason
                  :: one_final_if_any tool_parts reason
              | None =>
                  one_final_if_any
                    ((if String.eqb acc "" then [] else [text_part acc])
                     ++ tool_parts) reason
              end.
Proof.
  intros H reason acc. unfold on_finish in H.
  fold acc in H. fold reason in H.
  destruct (String.eqb acc "") eqn:Ha; cbn [negb] in H |- *.
  - destruct (stream_tool_parts (accumulated_tool_calls st)) as [tps |];
      [| discriminate].
    injection H as <-. exists None, tps.
    split; [reflexivity |]. split; reflexivity.
  - destruct (_try_parse_function_call_from_text acc true) as [r |];
      [| discriminate].
    destruct (stream_tool_parts (accumulated_tool_calls st)) as [tps |];
      [| discriminate].
    injection H as <-. exists r, tps. split; [reflexivity |].
    split; [reflexivity |]. destruct r; reflexivity.
Qed.

Lemma on_finish_all_final (st : StreamState) (finish : string) :
  finals (fst (on_finish st finish)) = fst (on_finish st finish)
  /\ (List.length (fst (on_finish st finish)) <= 2)%nat.
Proof.
  unfold on_finish.
  destruct (if negb (String.eqb (accumulated_content st) "")
            then _try_parse_function_call_from_text
                   (accumulated_content st) true
            else Ok None) as [r |]; [| split; [reflexivity | simpl; lia]].
  destruct (stream_tool_parts (accumulated_tool_calls st)) as [tps |].
  - destruct r as [p |];
      destruct ((if negb (String.eqb (accumulated_content st) "")
                 then [text_part (accumulated_content st)] else [])
                ++ tps);
      destruct tps; cbn; split; try reflexivity; lia.
  - destruct r; cbn; split; try reflexivity; lia.
Qed.

Lemma finals_app (xs ys : list LlmResponse) :
  finals (xs ++ ys) = finals xs ++ finals ys.
Proof. apply filter_app. Qed.

(** The text emitted for a token is partial, never final. *)
Lemma token_output_not_final (b : bool) (token : string) :
  finals (if b then [partial_response token] else []) = [].
Proof. destruct b; reflexivity. Qed.

(** What one chunk yields, by cases. *)
Lemma stream_chunk_finals (st : StreamState) (c : Chunk) :
  let '(outs, st', e) := stream_chunk st c in
  (has_finish_signal c = false -> finals outs = [] /\ e = None)
  /\ (List.length (finals outs) <= 2)%nat.
Proof.
  destruct c as [s | [| choice rest]]; cbn [stream_chunk has_finish_signal].
  - split; [split; reflexivity | simpl; lia].
  - split; [split; reflexivity | simpl; lia].
  - destruct (nonempty_str (delta_content (choice_delta choice))).
    + destruct (nonempty_str (choice_finish_reason choice)).
      * match goal with |- context [on_finish ?s ?f] =>
          pose proof (on_finish_all_final s f) as [Hf Hl];
          destruct (on_finish s f) as [out2 e] end.
        cbn [fst] in *. split; [discriminate |].
        rewrite finals_app, token_output_not_final, Hf. exact Hl.
      * split; [intros _; split; [apply token_output_not_final | reflexivity] |].
        rewrite token_output_not_final. simpl; lia.
    + destruct (nonempty_str (choice_finish_reason choice)).
      * match goal with |- context [on_finish ?s ?f] =>
          pose proof (on_finish_all_final s f) as [Hf Hl];
          destruct (on_finish s f) as [out2 e] end.
        cbn [fst] in *. split; [discriminate |].
        cbn [app]. rewrite Hf. exact Hl.
      * split; [split; reflexivity | simpl; lia].
Qed.

Lemma on_stream_error_finals (st : StreamState) :
  (List.length (finals (on_stream_error st)) <= 1)%nat.
Proof.
  unfold on_stream_error.
  destruct (negb (String.eqb (accumulated_content st) "")); simpl; lia.
Qed.

Lemma run_stream_finals (st : StreamState) (cs : list Chunk)
    (fail : option exn) :
  (List.length (finals (run_stream st cs fail))
   <= 2 * List.length (filter has_finish_signal cs) + 1)%nat.
Proof.
  revert st. induction cs as [| c cs IH]; intros st.
  - cbn [run_stream]. destruct fail; [| simpl; lia].
    pose proof (on_stream_error_finals st). simpl. lia.
  - cbn [run_stream filter].
    pose proof (stream_chunk_finals st c) as H.
    destruct (stream_chunk st c) as [[outs st'] e].
    destruct H as [Hno Hle].
    destruct (has_finish_signal c).
    + cbn [List.length].
      destruct e; rewrite finals_app, length_app.
      * pose proof (on_stream_error_finals st'). lia.
      * specialize (IH st'). lia.
    + destruct (Hno eq_refl) as [Hn ->].
      rewrite finals_app, Hn. cbn [app]. apply IH.
Qed.

(** C1, as the code has it. A chunk without a finish signal yields no
    final response. A chunk with one, when nothing is raised, yields at
    most two: if recovery on the accumulated text gives a function-call
    part, that part alone is a final response of its own, followed by one
    more final response holding the function-call parts of the
    accumulated tool-call fragments (one per fragment with a non-empty
    name) when there are any; if recovery gives nothing, the accumulated
    text (when not empty) and those function-call parts are combined in
    one final response, when there is any part. Each of them is
    non-partial and carries the mapped finish reason. Over a whole stream
    there are at most two final responses per chunk with a finish signal,
    and one more. *)
Theorem finish_chunk_final_responses :
  (forall (st : StreamState) (c : Chunk),
      has_finish_signal c = false ->
      finals (fst (fst (stream_chunk st c))) = [])
  /\ (forall (st : StreamState) (c : Chunk),
         (List.length (finals (fst (fst (stream_chunk st c)))) <= 2)%nat)
  /\ (forall (st st' : StreamState) (choice : Choice) (rest : list Choice)
             (outs : list LlmResponse),
         stream_chunk st (ObjChunk (choice :: rest)) = (outs, st', None) ->
         nonempty_str (choice_finish_reason choice) = true ->
         let reason := _convert_finish_reason (choice_finish_reason choice) in
         let acc := accumulated_content st' in
         exists (r : option Part) (tool_parts : list Part),
           (if String.eqb acc "" then Ok None
            else _try_parse_function_call_from_text acc true) = Ok r
           /\ stream_tool_parts (accumulated_tool_calls st') = Ok tool_parts
           /\ List.length tool_parts
              = List.length (named_fragments (accumulated_tool_calls st'))
           /\ finals outs
              = match r with
                | Some p =>
                    final_response [p] reason
                    :: one_final_if_any tool_parts reason
                | None =>
                    one_final_if_any
                      ((if String.eqb acc "" then [] else [text_part acc])
                       ++ tool_parts) reason
                end)
  /\ (forall (st : StreamState) (cs : list Chunk) (fail : option exn),
         (List.length (finals (run_stream st cs fail))
          <= 2 * List.length (filter has_finish_signal cs) + 1)%nat).
Proof.
  split; [| split; [| split]].
  - intros st c H. pose proof (stream_chunk_finals st c) as F.
    destruct (stream_chunk st c) as [[outs st'] e]. now apply F.
  - intros st c. pose proof (stream_chunk_finals st c) as F.
    destruct (stream_chunk st c) as [[outs st'] e]. apply F.
  - intros st st' choice rest outs H Hfin reason acc.
    cbn [stream_chunk] in H. rewrite Hfin in H.
    destruct (choice_finish_reason choice) as [fr |] eqn:Hfr;
      [| discriminate].
    cbn [opt_str] in H.
    destruct (nonempty_str (delta_content (choice_delta choice)));
      match type of H with context [on_finish ?s ?f] =>
        destruct (on_finish s f) as [out2 e] eqn:Hon;
        pose proof (on_finish_all_final s f) as [Hf _]
      end;
      rewrite Hon in Hf; cbn [fst] in Hf;
      injection H as <- <- ->;
      destruct (on_finish_ok _ _ Hon) as [r [tps [Hr [Ht Hout]]]];
      exists r, tps;
      (split; [exact Hr |]); (split; [exact Ht |]);
      (split; [now apply stream_tool_parts_length |]);
      rewrite ?finals_app, ?token_output_not_final; cbn [app];
      rewrite Hf; exact Hout.
  - apply run_stream_finals.
Qed.

Lemma looks_like_contains (acc : string) :
  _looks_like_function_call_in_progress acc
  = PyStr.contains pattern_name acc || PyStr.contains pattern_type acc.
Proof.
  unfold _looks_like_function_call_in_progress, PyStr.startswith.
  rewrite <- (@PyStrFacts.contains_strip pattern_name acc eq_refl eq_refl).
  rewrite <- (@PyStrFacts.contains_strip pattern_type acc eq_refl eq_refl).
  destruct (String.prefix pattern_name (PyStr.strip acc)) eqn:H1.
  { now rewrite (PyStrFacts.prefix_contains _ _ H1). }
  destruct (String.prefix pattern_type (PyStr.strip acc)) eqn:H2.
  { rewrite (PyStrFacts.prefix_contains _ _ H2). cbn [orb].
    now rewrite orb_true_r. }
  cbn [orb].
  destruct (PyStr.contains pattern_name (PyStr.strip acc)
            || PyStr.contains pattern_type (PyStr.strip acc)); reflexivity.
Qed.


Lemma looks_like_grows (acc t : string) :
  _looks_like_function_call_in_progress acc = true ->
  _looks_like_function_call_in_progress (acc ++ t) = true.
Proof.
  rewrite !looks_like_contains. intros H.
  apply orb_true_iff in H. apply orb_true_iff.
  destruct H as [H | H]; [left | right];
    now apply PyStrFacts.contains_app.
Qed.

Lemma append_empty (x : string) : (x ++ "")%string = x.
Proof. induction x as [| c x IH]; [reflexivity |]. simpl. now rewrite IH. Qed.












End StreamingProperties.

Lemma finish_chunk_final_responses_witness :
  finals (fst (fst (stream_chunk (rt := RefRuntime) initial_state
                      (text_chunk "Hi" None)))) = []
  /\ exists (r : option Part) (tool_parts : list Part),
       _try_parse_function_call_from_text (rt := RefRuntime) "Hi" true = Ok r
       /\ stream_tool_parts (rt := RefRuntime) [] = Ok tool_parts
       /\ List.length tool_parts = 0%nat
       /\ finals [partial_response "Hi"; final_response [text_part "Hi"] STOP]
          = match r with
            | Some p =>
                final_response [p] STOP :: one_final_if_any tool_parts STOP
            | None => one_final_if_any ([text_part "Hi"] ++ tool_parts) STOP
            end.
Proof.
  destruct (finish_chunk_final_responses (rt := RefRuntime))
    as [quiet [_ [finish _]]].
  split.
  - apply quiet. reflexivity.
  - apply (finish initial_state (mkStreamState "Hi" [])
                  (mkChoice (mkDelta (Some "Hi") None) (Some "stop")) []
                  [partial_response "Hi"; final_response [text_part "Hi"] STOP]
                  eq_refl eq_refl).
Defined.

(** One chunk carries a function call written as text, a structured tool
    call and the finish signal: two final responses are yielded, the
    recovered call in one and the tool call in the other. *)
Lemma finish_chunk_final_responses_counterexample :
  run_stream (rt := RefRuntime) initial_state [text_and_tool_call_chunk] None
  = [final_response
       [function_call_part
          (mkFunctionCall (JStr "call_6106") (Some "get_weather")
                          (Some [("city", JStr "Singapore")]))] STOP;
     final_response
       [function_call_part
          (mkFunctionCall (JStr "call_9") (Some "get_current_time")
                          (Some [("city", JStr "New York")]))] STOP]
  /\ List.length
       (finals (run_stream (rt := RefRuntime) initial_state
                  [text_and_tool_call_chunk] None)) = 2%nat.
Proof. split; reflexivity. Qed.



(* ================================================================== *)
(** * Further properties of the adapter *)

(** ** Roles, finish reasons and message lists *)

Lemma convert_role_cases (r : option string) :
  _convert_role r = "assistant" \/ _convert_role r = "user"
  \/ _convert_role r = "system".
Proof.
  unfold _convert_role. destruct r as [s |]; [| auto].
  destruct (in_list s ["model"; "assistant"]); [auto |].
  destruct (String.eqb s "user"); [auto |].
  destruct (String.eqb s "system"); auto.
Qed.

(** X1. [_convert_role] only ever answers ["assistant"], ["user"] or
    ["system"] (never ["tool"]), sends an absent role to ["user"], and is
    idempotent: a role it produced is mapped to itself. *)
Theorem convert_role_closed :
  forall r : option string,
    In (_convert_role r) ["assistant"; "user"; "system"]
    /\ _convert_role r <> "tool"
    /\ _convert_role (Some (_convert_role r)) = _convert_role r
    /\ _convert_role None = "user".
Proof.
  intros r.
  destruct (convert_role_cases r) as [H | [H | H]]; rewrite H;
    (split; [simpl; auto |]); (split; [discriminate |]);
    split; reflexivity.
Qed.

(** X2. [_convert_finish_reason] answers [STOP] exactly on ["stop"] and
    ["tool_calls"], [MAX_TOKENS] exactly on ["length"], [SAFETY] exactly
    on ["content_filter"], and [FINISH_REASON_UNSPECIFIED] on everything
    else, an absent reason included. *)
Theorem convert_finish_reason_table :
  forall r : option string,
    (_convert_finish_reason r = STOP
     <-> r = Some "stop" \/ r = Some "tool_calls")
    /\ (_convert_finish_reason r = MAX_TOKENS <-> r = Some "length")
    /\ (_convert_finish_reason r = SAFETY <-> r = Some "content_filter")
    /\ (_convert_finish_reason r = FINISH_REASON_UNSPECIFIED
        <-> r <> Some "stop" /\ r <> Some "tool_calls"
            /\ r <> Some "length" /\ r <> Some "content_filter").
Proof.
  intros [s |]; unfold _convert_finish_reason.
  2:{ repeat split; intros; try discriminate;
        repeat match goal with
               | H : _ \/ _ |- _ => destruct H
               end; discriminate. }
  destruct (String.eqb_spec s "stop") as [-> | N1].
  { repeat split; intros; try discriminate; auto;
      repeat match goal with
             | H : _ /\ _ |- _ => destruct H
             end; congruence. }
  destruct (String.eqb_spec s "length") as [-> | N2].
  { repeat split; intros; try discriminate; auto;
      repeat match goal with
             | H : _ /\ _ |- _ => destruct H
             | H : _ \/ _ |- _ => destruct H
             end; congruence. }
  destruct (String.eqb_spec s "tool_calls") as [-> | N3].
  { repeat split; intros; try discriminate; auto;
      repeat match goal with
             | H : _ /\ _ |- _ => destruct H
             end; congruence. }
  destruct (String.eqb_spec s "content_filter") as [-> | N4].
  { repeat split; intros; try discriminate; auto;
      repeat match goal with
             | H : _ /\ _ |- _ => destruct H
             | H : _ \/ _ |- _ => destruct H
             end; congruence. }
  repeat split; intros; try discriminate; try congruence;
    repeat match goal with
           | H : _ \/ _ |- _ => destruct H
           end; congruence.
Qed.

Section MessageListProperties.
Context {rt : Runtime}.

Lemma tool_messages_all_tool (ps : list Part) :
  any_tool_message (tool_messages ps) = existsb has_function_response ps.
Proof.
  induction ps as [| p ps IH]; [reflexivity |].
  cbn [tool_messages existsb]. unfold has_function_response at 1, is_some.
  destruct (function_response p); [reflexivity | exact IH].
Qed.

Lemma any_tool_message_app (xs ys : list Message) :
  any_tool_message (xs ++ ys) = any_tool_message xs || any_tool_message ys.
Proof. unfold any_tool_message. apply existsb_app. Qed.

Lemma convert_content_tool (c : Content) :
  any_tool_message (convert_content c) = holds_function_result_b c.
Proof.
  unfold convert_content, holds_function_result_b.
  destruct (existsb has_function_response (opt_list (parts c))) eqn:E.
  - rewrite tool_messages_all_tool. exact E.
  - cbn [any_tool_message existsb msg_role orb].
    destruct (convert_role_cases (role c)) as [H | [H | H]]; rewrite H;
      reflexivity.
Qed.

Lemma tool_message_iff_function_result_aux (conversation : list Content) :
  any_tool_message (_convert_contents_to_messages conversation)
  = existsb holds_function_result_b conversation.
Proof.
  induction conversation as [| c cs IH]; [reflexivity |].
  change (c :: cs) with ([c] ++ cs).
  rewrite convert_contents_app, any_tool_message_app, IH.
  cbn [app existsb]. f_equal.
  unfold _convert_contents_to_messages. cbn [flat_map].
  rewrite app_nil_r. apply convert_content_tool.
Qed.

(** X3. The encoded conversation holds a message of role ["tool"] exactly
    when some entry of the conversation holds a function result: tool
    messages come from function results and from nothing else. The same
    holds of the message list of a request, where the system instruction
    adds a message of role ["system"] in front. *)
Theorem tool_message_iff_function_result :
  (forall conversation : list Content,
      any_tool_message (_convert_contents_to_messages conversation)
      = existsb holds_function_result_b conversation)
  /\ (forall req : LlmRequest,
         any_tool_message (request_messages req)
         = existsb holds_function_result_b (contents req)).
Proof.
  split; [apply tool_message_iff_function_result_aux |].
  intros req. unfold request_messages.
  destruct (nonempty_str (system_instruction (config req)));
    [cbn [any_tool_message existsb msg_role String.eqb orb] |];
    apply tool_message_iff_function_result_aux.
Qed.

(** X4. A conversation without function results is encoded message for
    entry: the list of roles of the messages is the list of converted
    roles of the entries, so there are as many messages as entries, in
    the same order. *)
Theorem one_message_per_entry :
  forall conversation : list Content,
    existsb holds_function_result_b conversation = false ->
    map msg_role (_convert_contents_to_messages conversation)
    = map (fun c => _convert_role (role c)) conversation.
Proof.
  induction conversation as [| c cs IH]; [reflexivity |].
  cbn [existsb]. intros H. apply orb_false_iff in H. destruct H as [Hc Hcs].
  change (c :: cs) with ([c] ++ cs).
  rewrite convert_contents_app, map_app, (IH Hcs).
  unfold _convert_contents_to_messages at 1. cbn [flat_map].
  rewrite app_nil_r. unfold convert_content.
  unfold holds_function_result_b in Hc. rewrite Hc. reflexivity.
Qed.

Lemma tool_call_entries_calls (ps : list Part) :
  tool_call_entries ps
  = map (fun fc => mkToolCallEntry (fc_id fc) (fc_name fc)
                     (json_dumps (args_value (fc_args fc))))
        (function_calls ps).
Proof.
  induction ps as [| p ps IH]; [reflexivity |].
  cbn [tool_call_entries function_calls flat_map].
  fold (function_calls ps).
  destruct (function_call p); cbn [app map]; now rewrite IH.
Qed.

(** X5. Whenever a message of the encoded conversation carries
    [tool_calls], its role is ["assistant"], the list is not empty and it
    holds, in part order, one entry per function-call part of the entry
    it comes from, with the call's id, name and the JSON text of its
    arguments. Function calls of an entry of another role are dropped. *)
Theorem tool_calls_only_on_assistant :
  forall (c : Content) (r : string) (ct : MsgContent)
         (tcs : option (list ToolCallEntry)),
    In (ChatMessage r ct tcs) (convert_content c) ->
    match tcs with
    | Some l =>
        r = "assistant" /\ l <> []
        /\ l = map (fun fc => mkToolCallEntry (fc_id fc) (fc_name fc)
                                (json_dumps (args_value (fc_args fc))))
                   (function_calls (opt_list (parts c)))
    | None =>
        r = "assistant" -> function_calls (opt_list (parts c)) = []
    end.
Proof.
  intros c r ct tcs. unfold convert_content.
  destruct (existsb has_function_response (opt_list (parts c))).
  { rewrite tool_messages_results. intros H. apply in_map_iff in H.
    destruct H as [fr [H _]]. discriminate H. }
  intros [H | []]. injection H as <- <- <-.
  unfold _convert_role.
  destruct (role c) as [s |].
  2:{ cbn. discriminate. }
  change (opt_str (Some s)) with s.
  change ((s =? "model")%string || ((s =? "assistant")%string || false))
    with (in_list s ["model"; "assistant"]).
  destruct (in_list s ["model"; "assistant"]) eqn:Hs; cbn [andb].
  - destruct (opt_list (parts c)) as [| p ps] eqn:Hp; cbn [andb].
    + intros _. reflexivity.
    + rewrite tool_call_entries_calls.
      destruct (function_calls (p :: ps)) as [| fc fcs] eqn:Hf; cbn [map].
      * intros _. reflexivity.
      * split; [reflexivity |]. split; [discriminate | reflexivity].
  - destruct (String.eqb s "user"); [discriminate |].
    destruct (String.eqb s "system"); discriminate.
Qed.

Lemma convert_parts_length (ps : list Part) :
  (List.length (convert_parts ps) <= List.length ps)%nat.
Proof.
  induction ps as [| p ps IH]; [simpl; lia |].
  cbn [convert_parts]. destruct (convert_part p); simpl; lia.
Qed.

(** X6. The content of a message is a list only when the parts gave two
    items or more, or one item that is not text; the list is then exactly
    the converted items, never empty. There are never more items than
    parts, and two non-empty text parts stay two text items: texts are
    not joined. *)
Theorem structured_content_shape :
  (forall (ps : list Part) (l : list ContentItem),
      _convert_parts_to_content ps = CList l ->
      l = convert_parts ps
      /\ ((2 <= List.length l)%nat
          \/ exists it, l = [it] /\ is_text_item it = false))
  /\ (forall ps : list Part,
         (List.length (convert_parts ps) <= List.length ps)%nat)
  /\ (forall t1 t2 : string,
         t1 <> "" -> t2 <> "" ->
         _convert_parts_to_content [text_part t1; text_part t2]
         = CList [TextItem t1; TextItem t2]).
Proof.
  split; [| split].
  - intros ps l. unfold _convert_parts_to_content.
    destruct (convert_parts ps) as [| it [| it2 rest]]; try discriminate.
    + destruct it; try discriminate; intros H; inversion H; subst l;
        (split; [reflexivity |]); right; eexists; split; reflexivity.
    + destruct it; intros H; inversion H; subst l;
        (split; [reflexivity |]); left; simpl; lia.
  - apply convert_parts_length.
  - intros t1 t2 H1 H2. unfold _convert_parts_to_content.
    cbn [convert_parts]. rewrite !convert_part_text_part.
    apply String.eqb_neq in H1, H2. rewrite H1, H2. reflexivity.
Qed.

End MessageListProperties.

Lemma one_message_per_entry_witness :
  map msg_role
      (_convert_contents_to_messages (rt := RefRuntime)
         [example_user_turn; example_call_turn])
  = ["user"; "assistant"].
Proof.
  apply (one_message_per_entry (rt := RefRuntime)
           [example_user_turn; example_call_turn]).
  reflexivity.
Defined.

Lemma tool_calls_only_on_assistant_witness :
  "assistant" = "assistant"
  /\ [mkToolCallEntry (JStr "call_1") (Some "get_weather")
        (Ref.q "{'city': 'Singapore'}")] <> []
  /\ [mkToolCallEntry (JStr "call_1") (Some "get_weather")
        (Ref.q "{'city': 'Singapore'}")]
     = map (fun fc => mkToolCallEntry (fc_id fc) (fc_name fc)
                        (Ref.json_dumps (args_value (fc_args fc))))
           (function_calls (opt_list (parts example_call_turn))).
Proof.
  apply (tool_calls_only_on_assistant (rt := RefRuntime) example_call_turn
           "assistant" (CStr "")
           (Some [mkToolCallEntry (JStr "call_1") (Some "get_weather")
                    (Ref.q "{'city': 'Singapore'}")])).
  left. reflexivity.
Defined.

Lemma structured_content_shape_witness :
  [TextItem "a"; TextItem "b"]
  = convert_parts (rt := RefRuntime) [text_part "a"; text_part "b"]
  /\ ((2 <= List.length [TextItem "a"; TextItem "b"])%nat
      \/ exists it, [TextItem "a"; TextItem "b"] = [it]
                    /\ is_text_item it = false).
Proof.
  destruct (structured_content_shape (rt := RefRuntime)) as [shape [_ two]].
  apply (shape [text_part "a"; text_part "b"]).
  apply two; discriminate.
Defined.

(* ================================================================== *)
(** ** Tools, schemas and request parameters *)

Lemma no_null_obj (o : obj) :
  json_no_null (JObj o) = forallb (fun kv => json_no_null (snd kv)) o.
Proof.
  induction o as [| [k v] o IH]; [reflexivity |].
  cbn [forallb snd]. rewrite <- IH. reflexivity.
Qed.

Lemma no_null_arr_strings (l : list string) :
  json_no_null (JArr (map JStr l)) = true.
Proof. induction l as [| x l IH]; [reflexivity | exact IH]. Qed.

Lemma schema_no_null (s : Schema) : json_no_null (_convert_schema s) = true.
Proof.
  induction s as [ty descr props its en req Hprops Hits]
    using Schema_induction.
  cbn [_convert_schema]. rewrite no_null_obj, !forallb_app.
  repeat (apply andb_true_iff; split).
  - destruct ty; reflexivity.
  - destruct (nonempty_str descr); reflexivity.
  - destruct props as [ps |]; [| reflexivity].
    assert (H : forallb (fun kv => json_no_null (snd kv))
                  ((fix conv (l : list (string * Schema)) : obj :=
                      match l with
                      | [] => []
                      | (name, prop_schema) :: l' =>
                          (name, _convert_schema prop_schema) :: conv l'
                      end) ps) = true).
    { induction Hprops as [| [k s'] l Hs _ IH]; [reflexivity |].
      cbn [forallb snd] in *. now rewrite Hs, IH. }
    destruct ps as [| kv ps]; [reflexivity |].
    cbn [forallb snd]. now rewrite andb_true_r, no_null_obj.
  - destruct its as [i |]; [| reflexivity].
    cbn [forallb snd]. now rewrite Hits.
  - destruct (nonempty_list en); [| reflexivity].
    cbn [forallb snd]. now rewrite no_null_arr_strings.
Qed.

Lemma keys_among (keys : list string) (o : obj) (k : string) :
  forallb (fun kv => in_list (fst kv) keys) o = true ->
  has_key k o = true -> in_list k keys = true.
Proof.
  unfold has_key. induction o as [| [k' v] o IH]; cbn [forallb lookup fst].
  - discriminate.
  - intros H. apply andb_true_iff in H. destruct H as [Hk Ho].
    destruct (String.eqb_spec k k') as [-> |]; [intros _; exact Hk |].
    now apply IH.
Qed.

(** X7. A translated schema is a JSON object that holds no [null] at any
    depth, whose keys are among [type], [description], [properties],
    [items] and [enum], and whose [type] is the lower-cased type name of
    the schema, absent when the schema has none. The [required] list of a
    schema is never emitted by the translation. *)
Theorem schema_translation_shape :
  forall s : Schema,
    json_no_null (_convert_schema s) = true
    /\ exists o : obj,
         _convert_schema s = JObj o
         /\ forallb (fun kv => in_list (fst kv) schema_keys) o = true
         /\ has_key "required" o = false
         /\ lookup "type" o
            = option_map (fun t => JStr (PyStr.lower t)) (schema_type s).
Proof.
  intros s. split; [apply schema_no_null |].
  destruct s as [ty descr props its en req]. cbn [_convert_schema].
  eexists. split; [reflexivity |].
  match goal with |- forallb ?f ?o = true /\ _ =>
    assert (K : forallb f o = true) end.
  { rewrite !forallb_app. repeat (apply andb_true_iff; split).
    - destruct ty; reflexivity.
    - destruct (nonempty_str descr); reflexivity.
    - destruct props as [[| kv ps] |]; reflexivity.
    - destruct its; reflexivity.
    - destruct (nonempty_list en); reflexivity. }
  split; [exact K |]. split.
  - match goal with |- has_key "required" ?o = false =>
      destruct (has_key "required" o) eqn:E; [| reflexivity] end.
    apply (keys_among _ _ _ K) in E. discriminate E.
  - destruct ty; [reflexivity |].
    destruct (nonempty_str descr), props as [[| kv ps] |], its,
      (nonempty_list en); reflexivity.
Qed.

Lemma flat_map_map_inner {A B C} (f : B -> C) (g : A -> list B)
    (l : list A) :
  flat_map (fun a => map f (g a)) l = map f (flat_map g l).
Proof.
  induction l as [| a l IH]; [reflexivity |].
  cbn [flat_map]. now rewrite map_app, IH.
Qed.

(** X8. The tool conversion answers absent exactly when the request
    declares no function (no tools, or only groups without declarations);
    otherwise it answers one definition per declared function, in order,
    groups without declarations being skipped. Each definition has type
    ["function"], the declaration's name, its description (the empty
    string when absent) and a [parameters] object exactly when the
    declaration has a parameter schema. *)
Theorem convert_tools_definitions :
  forall req : LlmRequest,
    (_convert_tools req = None <-> declarations req = [])
    /\ (forall ts, _convert_tools req = Some ts ->
                   ts = map convert_declaration (declarations req)
                   /\ ts <> [])
    /\ (forall d : FunctionDeclaration,
           exists f : obj,
             convert_declaration d
             = JObj [("type", JStr "function"); ("function", JObj f)]
             /\ lookup "name" f = Some (str_or_null (fd_name d))
             /\ lookup "description" f
                = Some (JStr (opt_str (fd_description d)))
             /\ has_key "parameters" f = is_some (fd_parameters d)).
Proof.
  intros req.
  assert (E : _convert_tools req
              = match map convert_declaration (declarations req) with
                | [] => None
                | ts => Some ts
                end).
  { unfold _convert_tools, declarations.
    rewrite flat_map_map_inner.
    destruct (tools (config req)) as [[| t ts] |]; try reflexivity.
    cbn [negb nonempty_list].
    destruct (map convert_declaration _); reflexivity. }
  split; [| split].
  - rewrite E. destruct (declarations req); cbn [map]; split;
      intros H; try reflexivity; discriminate.
  - intros ts. rewrite E.
    destruct (map convert_declaration (declarations req)) eqn:M;
      [discriminate |].
    intros [= <-]. split; [reflexivity | discriminate].
  - intros d. unfold convert_declaration. eexists. split; [reflexivity |].
    split; [reflexivity |]. split; [reflexivity |].
    destruct (fd_parameters d); reflexivity.
Qed.

Section RequestParameterProperties.
Context {rt : Runtime}.

Lemma request_messages_tool (req : LlmRequest) :
  any_tool_message (request_messages req)
  = existsb holds_function_result_b (contents req).
Proof.
  unfold request_messages.
  destruct (nonempty_str (system_instruction (config req)));
    [cbn [any_tool_message existsb msg_role String.eqb orb] |];
    apply tool_message_iff_function_result_aux.
Qed.

End RequestParameterProperties.

Section RequestComposition.
Context {rt : Runtime}.

(** X9. A request whose conversation holds a function result is always
    built, and without [tools] and [tool_choice], whatever tools are
    declared and whatever the last message says: the keyword gate is not
    even consulted. *)
Theorem function_result_blocks_tools :
  forall (model : string) (req : LlmRequest) (stream : bool),
    existsb holds_function_result_b (contents req) = true ->
    exists p, build_api_params model req stream = Ok p
              /\ ap_tools p = None /\ ap_tool_choice p = None.
Proof.
  intros model req stream H. unfold build_api_params.
  rewrite request_messages_tool, H.
  destruct (nonempty_list (_convert_tools req)); cbn [bind];
    eexists; (split; [reflexivity |]); split; reflexivity.
Qed.

(** X10. Whenever a request body is built, it carries the adapter's model
    name, the stream flag and the message list of the request, and the
    generation parameters of the configuration one for one: temperature,
    [max_tokens] from [max_output_tokens], [top_p], the two penalties, and
    [stop] from [stop_sequences] unless that list is empty, in which case
    no [stop] is sent. *)
Theorem request_body_parameters :
  forall (model : string) (req : LlmRequest) (stream : bool) (p : ApiParams),
    build_api_params model req stream = Ok p ->
    ap_model p = model
    /\ ap_stream p = stream
    /\ ap_messages p = request_messages req
    /\ ap_temperature p = temperature (config req)
    /\ ap_max_tokens p = max_output_tokens (config req)
    /\ ap_top_p p = top_p (config req)
    /\ ap_stop p = (if nonempty_list (stop_sequences (config req))
                    then stop_sequences (config req) else None)
    /\ ap_presence_penalty p = presence_penalty (config req)
    /\ ap_frequency_penalty p = frequency_penalty (config req).
Proof.
  intros model req stream p H. unfold build_api_params in H.
  match type of H with
  | bind ?m _ = _ => destruct m as [a |] eqn:E; [| discriminate H]
  end.
  cbn [bind] in H. injection H as <-.
  assert (A : ap_model a = model /\ ap_messages a = request_messages req
              /\ ap_stream a = stream /\ ap_temperature a = None
              /\ ap_max_tokens a = None /\ ap_top_p a = None
              /\ ap_stop a = None /\ ap_presence_penalty a = None
              /\ ap_frequency_penalty a = None).
  { invert_ok E; injection E as <-; repeat split; reflexivity. }
  destruct A as [A1 [A2 [A3 [A4 [A5 [A6 [A7 [A8 A9]]]]]]]].
  unfold _add_generation_params.
  cbn [ap_model ap_stream ap_messages ap_temperature ap_max_tokens ap_top_p
       ap_stop ap_presence_penalty ap_frequency_penalty].
  rewrite A4, A5, A6, A7, A8, A9.
  repeat split; try assumption.
  - destruct (temperature (config req)); reflexivity.
  - destruct (max_output_tokens (config req)); reflexivity.
  - destruct (top_p (config req)); reflexivity.
  - destruct (presence_penalty (config req)); reflexivity.
  - destruct (frequency_penalty (config req)); reflexivity.
Qed.

End RequestComposition.

Lemma convert_tools_definitions_witness :
  _convert_tools example_request
  = Some (map convert_declaration (declarations example_request))
  /\ map convert_declaration (declarations example_request) <> [].
Proof.
  assert (H : _convert_tools example_request
              = Some (map convert_declaration (declarations example_request)))
    by reflexivity.
  split; [exact H |].
  destruct (proj1 (proj2 (convert_tools_definitions example_request)) _ H)
    as [_ N].
  exact N.
Defined.

Lemma function_result_blocks_tools_witness :
  exists p, build_api_params (rt := RefRuntime)
              "meta-llama/Llama-3.2-1B-Instruct" example_tool_request false
            = Ok p
            /\ ap_tools p = None /\ ap_tool_choice p = None.
Proof.
  apply (function_result_blocks_tools (rt := RefRuntime)).
  reflexivity.
Defined.

Lemma request_body_parameters_witness :
  exists p, build_api_params (rt := RefRuntime)
              "meta-llama/Llama-3.2-1B-Instruct" example_request true = Ok p
            /\ ap_model p = "meta-llama/Llama-3.2-1B-Instruct"
            /\ ap_stream p = true
            /\ ap_stop p = None.
Proof.
  eexists. split; [reflexivity |].
  destruct (request_body_parameters (rt := RefRuntime)
              "meta-llama/Llama-3.2-1B-Instruct" example_request true
              eq_refl) as [M [S [_ [_ [_ [_ [St _]]]]]]].
  split; [exact M |]. split; [exact S | exact St].
Defined.

(* ================================================================== *)
(** ** Accumulation of streamed tool calls and text *)

Lemma append_assoc (x y z : string) :
  ((x ++ y) ++ z)%string = (x ++ (y ++ z))%string.
Proof. induction x as [| c x IH]; [reflexivity |]. simpl. now rewrite IH. Qed.

Lemma acc_lookup_set_same (i : Z) (a : ToolCallAcc)
    (d : list (Z * ToolCallAcc)) :
  acc_lookup i (acc_set i a d) = Some a.
Proof.
  induction d as [| [j b] d IH]; cbn [acc_set acc_lookup].
  - now rewrite Z.eqb_refl.
  - destruct (i =? j) eqn:E; cbn [acc_lookup]; rewrite ?Z.eqb_refl, ?E;
      [reflexivity | exact IH].
Qed.

Lemma acc_lookup_set_other (i j : Z) (a : ToolCallAcc)
    (d : list (Z * ToolCallAcc)) :
  i <> j -> acc_lookup j (acc_set i a d) = acc_lookup j d.
Proof.
  intros N. induction d as [| [k b] d IH]; cbn [acc_set acc_lookup].
  - destruct (j =? i) eqn:E; [| reflexivity].
    apply Z.eqb_eq in E. congruence.
  - destruct (i =? k) eqn:E; cbn [acc_lookup].
    + apply Z.eqb_eq in E. subst k.
      destruct (j =? i) eqn:E'; [| reflexivity].
      apply Z.eqb_eq in E'. congruence.
    + destruct (j =? k); [reflexivity | exact IH].
Qed.

Lemma acc_set_keys (i : Z) (a : ToolCallAcc) (d : list (Z * ToolCallAcc)) :
  map fst (acc_set i a d)
  = match acc_lookup i d with
    | Some _ => map fst d
    | None => map fst d ++ [i]
    end.
Proof.
  induction d as [| [j b] d IH]; cbn [acc_set acc_lookup map fst app].
  - reflexivity.
  - destruct (i =? j) eqn:E; cbn [map fst].
    + apply Z.eqb_eq in E. now subst.
    + rewrite IH. destruct (acc_lookup i d); reflexivity.
Qed.

Lemma acc_lookup_in_keys (i : Z) (d : list (Z * ToolCallAcc)) :
  acc_lookup i d = None <-> ~ In i (map fst d).
Proof.
  induction d as [| [j b] d IH]; cbn [acc_lookup map fst In].
  - split; [intros _ [] | reflexivity].
  - destruct (i =? j) eqn:E.
    + apply Z.eqb_eq in E. subst. split; [discriminate | intros N].
      exfalso. apply N. now left.
    + apply Z.eqb_neq in E. rewrite IH. split.
      * intros N [H | H]; [congruence | contradiction].
      * intros N H. apply N. now right.
Qed.

Lemma accumulate_lookup (d : list (Z * ToolCallAcc)) (tc : ToolCallDelta)
    (i : Z) :
  acc_lookup i (accumulate_tool_call d tc)
  = if tc_index tc =? i
    then Some (match acc_lookup i d with
               | Some a =>
                   mkToolCallAcc (acc_id a)
                     (acc_name a ++ fragment_name tc)
                     (acc_arguments a ++ fragment_arguments tc)
               | None =>
                   mkToolCallAcc (opt_str (tc_id tc)) (fragment_name tc)
                                 (fragment_arguments tc)
               end)
    else acc_lookup i d.
Proof.
  unfold accumulate_tool_call.
  fold (fragment_name tc). fold (fragment_arguments tc).
  destruct (tc_index tc =? i) eqn:E.
  - apply Z.eqb_eq in E. subst i. rewrite acc_lookup_set_same.
    destruct (acc_lookup (tc_index tc) d); reflexivity.
  - apply Z.eqb_neq in E. now apply acc_lookup_set_other.
Qed.

(** X11. Tool-call fragments are accumulated per index: after any list of
    deltas, the entry under an index that was not there before holds the
    id of the first delta of that index and the names and argument
    strings of all its deltas joined in arrival order; an entry that was
    there keeps its id and is extended in the same way. Deltas of other
    indices, however interleaved, do not touch it. *)
Theorem fragments_accumulate_per_index :
  forall (tcs : list ToolCallDelta) (d : list (Z * ToolCallAcc)) (i : Z),
    acc_lookup i (fold_left accumulate_tool_call tcs d)
    = match acc_lookup i d with
      | Some a =>
          Some (mkToolCallAcc (acc_id a)
                  (acc_name a
                   ++ PyStr.join (map fragment_name (fragments_of i tcs)))
                  (acc_arguments a
                   ++ PyStr.join (map fragment_arguments
                                      (fragments_of i tcs))))
      | None => rebuilt_entry (fragments_of i tcs)
      end.
Proof.
  induction tcs as [| tc tcs IH]; intros d i.
  - cbn. destruct (acc_lookup i d) as [[id n a] |]; [| reflexivity].
    cbn. now rewrite !append_empty.
  - cbn [fold_left]. rewrite IH, accumulate_lookup.
    unfold fragments_of. cbn [filter]. fold (fragments_of i tcs).
    destruct (tc_index tc =? i).
    + destruct (acc_lookup i d) as [a |];
        cbn [acc_id acc_name acc_arguments rebuilt_entry map PyStr.join
             fold_right];
        fold (PyStr.join (map fragment_name (fragments_of i tcs)));
        fold (PyStr.join (map fragment_arguments (fragments_of i tcs)));
        now rewrite ?append_assoc.
    + reflexivity.
Qed.

Lemma accumulate_keys (d : list (Z * ToolCallAcc)) (tc : ToolCallDelta) :
  map fst (accumulate_tool_call d tc)
  = match acc_lookup (tc_index tc) d with
    | Some _ => map fst d
    | None => map fst d ++ [tc_index tc]
    end.
Proof. unfold accumulate_tool_call. apply acc_set_keys. Qed.

(** X12. The accumulated tool calls never hold an index twice, and the
    indices they hold are those already there, in their order, followed
    by the new indices of the deltas: an index is present afterwards
    exactly when it was present before or some delta carries it. *)
Theorem accumulated_indices_unique :
  forall (tcs : list ToolCallDelta) (d : list (Z * ToolCallAcc)),
    NoDup (map fst d) ->
    NoDup (map fst (fold_left accumulate_tool_call tcs d))
    /\ (exists added,
          map fst (fold_left accumulate_tool_call tcs d)
          = map fst d ++ added)
    /\ (forall i,
          In i (map fst (fold_left accumulate_tool_call tcs d))
          <-> In i (map fst d) \/ In i (map tc_index tcs)).
Proof.
  induction tcs as [| tc tcs IH]; intros d N.
  - cbn [fold_left map]. split; [exact N |]. split.
    + exists []. now rewrite app_nil_r.
    + intros i. cbn. tauto.
  - cbn [fold_left].
    assert (N' : NoDup (map fst (accumulate_tool_call d tc))).
    { rewrite accumulate_keys.
      destruct (acc_lookup (tc_index tc) d) eqn:E; [exact N |].
      apply acc_lookup_in_keys in E.
      apply NoDup_app; [exact N | repeat constructor; intros [] |].
      intros x Hx [<- | []]. contradiction. }
    destruct (IH _ N') as [ND [[added EQ] MEM]].
    split; [exact ND |]. split.
    + rewrite EQ, accumulate_keys.
      destruct (acc_lookup (tc_index tc) d).
      * now exists added.
      * exists (tc_index tc :: added). now rewrite <- app_assoc.
    + intros i. rewrite MEM, accumulate_keys. cbn [map In].
      destruct (acc_lookup (tc_index tc) d) eqn:E.
      * assert (In (tc_index tc) (map fst d)).
        { destruct (in_dec Z.eq_dec (tc_index tc) (map fst d)) as [H | H];
            [exact H |].
          apply acc_lookup_in_keys in H. congruence. }
        split; [tauto |]. intros [H1 | [<- | H1]]; auto.
      * rewrite in_app_iff. cbn [In]. tauto.
Qed.

Lemma accumulated_indices_unique_witness :
  NoDup (map fst
           (fold_left accumulate_tool_call
              [mkToolCallDelta 1 (Some "b") None;
               mkToolCallDelta 0 (Some "a") None;
               mkToolCallDelta 1 None None] [])).
Proof.
  apply (accumulated_indices_unique
           [mkToolCallDelta 1 (Some "b") None;
            mkToolCallDelta 0 (Some "a") None;
            mkToolCallDelta 1 None None] []).
  constructor.
Defined.

Section StreamTextProperties.
Context {rt : Runtime}.

Lemma empty_token (o : option string) :
  nonempty_str o = false -> opt_str o = "".
Proof.
  destruct o as [t |]; [| reflexivity]. cbn.
  intros H. apply negb_false_iff, String.eqb_eq in H. exact H.
Qed.

(** Every chunk appends its text to the accumulated content, whether or
    not the text was yielded. *)
Lemma stream_chunk_accumulates (st : StreamState) (c : Chunk) :
  accumulated_content (snd (fst (stream_chunk st c)))
  = (accumulated_content st ++ chunk_text c)%string.
Proof.
  destruct c as [s | [| choice rest]]; cbn [stream_chunk chunk_text].
  - reflexivity.
  - cbn. now rewrite append_empty.
  - destruct (nonempty_str (delta_content (choice_delta choice))) eqn:E.
    + destruct (nonempty_str (choice_finish_reason choice));
        [destruct (on_finish _ _) |]; reflexivity.
    + rewrite (empty_token _ E), append_empty.
      destruct (nonempty_str (choice_finish_reason choice));
        [destruct (on_finish _ _) |]; reflexivity.
Qed.

Lemma stream_chunk_quiet (st : StreamState) (c : Chunk) :
  has_finish_signal c = false ->
  exists outs st',
    stream_chunk st c = (outs, st', None)
    /\ Forall is_partial_text outs
    /\ (List.length outs <= 1)%nat
    /\ accumulated_content st'
       = (accumulated_content st ++ chunk_text c)%string.
Proof.
  intros H. pose proof (stream_chunk_accumulates st c) as A.
  destruct c as [s | [| choice rest]];
    cbn [stream_chunk has_finish_signal] in *.
  - eexists; eexists. split; [reflexivity |].
    split; [| split; [simpl; lia | exact A]].
    repeat constructor. now exists s.
  - eexists; eexists. split; [reflexivity |].
    split; [constructor | split; [simpl; lia | exact A]].
  - rewrite H in *.
    destruct (nonempty_str (delta_content (choice_delta choice)));
      eexists; eexists; (split; [reflexivity |]);
      (split; [| split; [| exact A]]).
    + destruct (negb _); repeat constructor. eexists; reflexivity.
    + destruct (negb _); simpl; lia.
    + constructor.
    + simpl; lia.
Qed.

Lemma on_stream_error_salvages (st : StreamState) :
  on_stream_error st = salvaged_text (accumulated_content st).
Proof.
  unfold on_stream_error, salvaged_text.
  destruct (String.eqb (accumulated_content st) ""); reflexivity.
Qed.

(** X13. Text is never lost by suppression: every chunk appends its text
    to the accumulated content, yielded or not. So when a stream in which
    no chunk carried a finish signal breaks with an exception, what was
    yielded is a list of partial text chunks followed by one final [STOP]
    response holding all the text received, or by nothing when no text
    was received. *)
Theorem broken_stream_salvages_text :
  (forall (st : StreamState) (c : Chunk),
      accumulated_content (snd (fst (stream_chunk st c)))
      = (accumulated_content st ++ chunk_text c)%string)
  /\ (forall (cs : list Chunk) (st : StreamState) (e : exn),
         forallb (fun c => negb (has_finish_signal c)) cs = true ->
         exists outs,
           Forall is_partial_text outs
           /\ run_stream st cs (Some e)
              = outs
                ++ salvaged_text
                     (accumulated_content st
                      ++ PyStr.join (map chunk_text cs))).
Proof.
  split; [apply stream_chunk_accumulates |].
  induction cs as [| c cs IH]; intros st e H.
  - exists []. split; [constructor |].
    cbn [run_stream map PyStr.join fold_right app].
    rewrite append_empty. apply on_stream_error_salvages.
  - cbn [forallb] in H. apply andb_true_iff in H. destruct H as [Hc Hcs].
    apply negb_true_iff in Hc.
    destruct (stream_chunk_quiet st c Hc) as [outs [st' [E [P [_ A]]]]].
    destruct (IH st' e Hcs) as [outs' [P' R]].
    exists (outs ++ outs'). split; [now apply Forall_app |].
    cbn [run_stream]. rewrite E, R, A, <- app_assoc.
    cbn [map PyStr.join fold_right]. now rewrite append_assoc.
Qed.

(** X14. A stream that ends normally without any chunk carrying a finish
    signal yields partial text chunks only: no final response and no
    error is produced, the sequence just ends, with at most one response
    per chunk. *)
Theorem stream_without_finish_ends_silently :
  forall (cs : list Chunk) (st : StreamState),
    forallb (fun c => negb (has_finish_signal c)) cs = true ->
    Forall is_partial_text (run_stream st cs None)
    /\ finals (run_stream st cs None) = []
    /\ (List.length (run_stream st cs None) <= List.length cs)%nat.
Proof.
  induction cs as [| c cs IH]; intros st H.
  - cbn. split; [constructor |]. split; [reflexivity | lia].
  - cbn [forallb] in H. apply andb_true_iff in H. destruct H as [Hc Hcs].
    apply negb_true_iff in Hc.
    destruct (stream_chunk_quiet st c Hc) as [outs [st' [E [Po [Lo _]]]]].
    destruct (IH st' Hcs) as [P [F L]].
    pose proof (stream_chunk_finals st c) as SF. rewrite E in SF.
    destruct SF as [SF _]. destruct (SF Hc) as [Fo _].
    cbn [run_stream]. rewrite E.
    split; [now apply Forall_app |]. split.
    + now rewrite finals_app, Fo, F.
    + rewrite length_app. cbn [List.length]. lia.
Qed.

Lemma on_finish_shape (st : StreamState) (finish : string) :
  Forall is_final_with_parts (fst (on_finish st finish)).
Proof.
  unfold on_finish.
  destruct (if negb (String.eqb (accumulated_content st) "")
            then _try_parse_function_call_from_text
                   (accumulated_content st) true
            else Ok None) as [r |]; [| constructor].
  assert (Y : Forall is_final_with_parts
                match r with
                | Some p =>
                    [final_response [p]
                       (_convert_finish_reason (Some finish))]
                | None => []
                end).
  { destruct r; repeat constructor. eexists; eexists; eexists; reflexivity. }
  destruct (stream_tool_parts (accumulated_tool_calls st)) as [tps |];
    [| exact Y].
  cbn [fst]. apply Forall_app. split; [exact Y |].
  destruct (_ ++ tps); repeat constructor.
  eexists; eexists; eexists; reflexivity.
Qed.

Lemma on_stream_error_shape (st : StreamState) :
  Forall is_final_with_parts (on_stream_error st).
Proof.
  unfold on_stream_error.
  destruct (negb (String.eqb (accumulated_content st) ""));
    repeat constructor.
  eexists; eexists; eexists; reflexivity.
Qed.

Lemma token_output_shape (b : bool) (t : string) :
  Forall (fun r => is_partial_text r \/ is_final_with_parts r)
         (if b then [partial_response t] else []).
Proof.
  destruct b; [apply Forall_cons; [left; now exists t |] |]; constructor.
Qed.

Lemma finals_are_stream_responses (l : list LlmResponse) :
  Forall is_final_with_parts l ->
  Forall (fun r => is_partial_text r \/ is_final_with_parts r) l.
Proof. apply Forall_impl. intros; now right. Qed.

Lemma stream_chunk_shape (st : StreamState) (c : Chunk) :
  Forall (fun r => is_partial_text r \/ is_final_with_parts r)
         (fst (fst (stream_chunk st c))).
Proof.
  destruct c as [s | [| choice rest]]; cbn [stream_chunk fst].
  - apply (token_output_shape true).
  - constructor.
  - destruct (nonempty_str (delta_content (choice_delta choice)));
      destruct (nonempty_str (choice_finish_reason choice)).
    + match goal with |- context [on_finish ?s ?f] =>
        pose proof (on_finish_shape s f) as F;
        destruct (on_finish s f) as [out2 e] end.
      cbn [fst] in *. apply Forall_app. split;
        [apply token_output_shape | now apply finals_are_stream_responses].
    + apply token_output_shape.
    + match goal with |- context [on_finish ?s ?f] =>
        pose proof (on_finish_shape s f) as F;
        destruct (on_finish s f) as [out2 e] end.
      cbn [fst app] in *. now apply finals_are_stream_responses.
    + constructor.
Qed.

Lemma run_stream_shape (st : StreamState) (cs : list Chunk)
    (fail : option exn) :
  Forall (fun r => is_partial_text r \/ is_final_with_parts r)
         (run_stream st cs fail).
Proof.
  revert st. induction cs as [| c cs IH]; intros st; cbn [run_stream].
  - destruct fail; [| constructor].
    apply finals_are_stream_responses, on_stream_error_shape.
  - pose proof (stream_chunk_shape st c) as S.
    destruct (stream_chunk st c) as [[outs st'] e]. cbn [fst] in S.
    destruct e; apply Forall_app; split; try exact S; try apply IH.
    apply finals_are_stream_responses, on_stream_error_shape.
Qed.

(** X15. The streaming path never yields an error response: everything
    [_stream_completion] yields is a partial text chunk or a final
    response with at least one part, even when the stream raises, and
    when the stream cannot even be created nothing is yielded at all. *)
Theorem streaming_never_yields_an_error :
  (forall (tr : Transport) (p : ApiParams),
      Forall (fun r => (is_partial_text r \/ is_final_with_parts r)
                       /\ is_error r = false)
             (_stream_completion tr p))
  /\ (forall (tr : Transport) (p : ApiParams) (e : exn),
         create_stream tr p = Raise e -> _stream_completion tr p = []).
Proof.
  split.
  - intros tr p. unfold _stream_completion.
    assert (G : forall l,
               Forall (fun r => is_partial_text r \/ is_final_with_parts r) l ->
               Forall (fun r => (is_partial_text r \/ is_final_with_parts r)
                                /\ is_error r = false) l).
    { intros l. apply Forall_impl. intros r H. split; [exact H |].
      destruct H as [[t ->] | [q [qs [fr ->]]]]; reflexivity. }
    destruct (create_stream tr p) as [s |]; apply G.
    + apply run_stream_shape.
    + constructor.
  - intros tr p e H. unfold _stream_completion. now rewrite H.
Qed.

End StreamTextProperties.

Lemma broken_stream_salvages_text_witness :
  exists outs,
    Forall is_partial_text outs
    /\ run_stream (rt := RefRuntime) initial_state
         [text_chunk "Hel" None; text_chunk "lo" None] (Some TransportError)
       = outs
         ++ salvaged_text
              (accumulated_content initial_state
               ++ PyStr.join
                    (map chunk_text
                         [text_chunk "Hel" None; text_chunk "lo" None])).
Proof.
  apply (proj2 (broken_stream_salvages_text (rt := RefRuntime))).
  reflexivity.
Defined.

Lemma stream_without_finish_ends_silently_witness :
  Forall is_partial_text
    (run_stream (rt := RefRuntime) initial_state
       [text_chunk "Hel" None; StrChunk "lo"; ObjChunk []] None)
  /\ finals (run_stream (rt := RefRuntime) initial_state
               [text_chunk "Hel" None; StrChunk "lo"; ObjChunk []] None) = []
  /\ (List.length
        (run_stream (rt := RefRuntime) initial_state
           [text_chunk "Hel" None; StrChunk "lo"; ObjChunk []] None)
      <= 3)%nat.
Proof.
  apply (stream_without_finish_ends_silently (rt := RefRuntime)
           [text_chunk "Hel" None; StrChunk "lo"; ObjChunk []] initial_state).
  reflexivity.
Defined.

Lemma streaming_never_yields_an_error_witness :
  _stream_completion (rt := RefRuntime)
    (mkTransport (fun _ => Raise TransportError) (fun _ => Ok hello_body))
    example_params
  = [].
Proof.
  apply (proj2 (streaming_never_yields_an_error (rt := RefRuntime))
           (mkTransport (fun _ => Raise TransportError)
                        (fun _ => Ok hello_body))
           example_params TransportError).
  reflexivity.
Defined.

(* ================================================================== *)
(** ** Responses of the non-streaming path and of the adapter as a whole *)

Section ResponseProperties.
Context {rt : Runtime}.

Lemma parse_raw_streaming_shape (response_text : string) (flag : bool)
    (r : LlmResponse) :
  _parse_raw_streaming_response response_text flag = Ok r ->
  well_formed_response r /\ partial r = None.
Proof.
  unfold _parse_raw_streaming_response. intros H. invert_ok H.
  - match type of H with
    | match ?x with _ => _ end = _ => destruct x
    end; injection H as <-; (split; [apply wf_final | reflexivity]).
  - injection H as <-. split; [| reflexivity].
    apply wf_error. simpl; auto.
Qed.

Lemma convert_raw_shape (response_data : json) (flag : bool) :
  well_formed_response
    (_convert_raw_response_to_llm_response response_data flag)
  /\ partial (_convert_raw_response_to_llm_response response_data flag)
     = None.
Proof.
  unfold _convert_raw_response_to_llm_response.
  match goal with |- well_formed_response (match ?b with _ => _ end) /\ _ =>
    destruct b as [r |] eqn:H end.
  2:{ split; [apply wf_error; simpl; auto | reflexivity]. }
  invert_ok H; injection H as <-;
    (split; [first [apply wf_final | apply wf_error; simpl; auto]
            | reflexivity]).
Qed.

Lemma make_raw_shape (tr : Transport) (p : ApiParams) :
  well_formed_response (_make_raw_http_request_async tr p)
  /\ partial (_make_raw_http_request_async tr p) = None.
Proof.
  unfold _make_raw_http_request_async.
  match goal with |- well_formed_response (match ?b with _ => _ end) /\ _ =>
    destruct b as [r |] eqn:H end.
  2:{ split; [apply wf_error; simpl; auto 6 | reflexivity]. }
  invert_ok H.
  - eapply parse_raw_streaming_shape. exact H.
  - injection H as <-. apply convert_raw_shape.
Qed.

(** X16. Every response [generate_content_async] yields, in either mode
    and whatever the transport does, has one of three forms: an error
    with one of the adapter's five codes, a partial text chunk, or a final
    response with role ["model"] and at least one part. Without streaming
    exactly one response is yielded, and it is not partial. *)
Theorem every_response_is_well_formed :
  (forall (tr : Transport) (model : string) (req : LlmRequest)
          (stream : bool),
      Forall well_formed_response
             (generate_content_async tr model req stream))
  /\ (forall (tr : Transport) (model : string) (req : LlmRequest),
         exists r, generate_content_async tr model req false = [r]
                   /\ partial r = None).
Proof.
  split.
  - intros tr model req stream. unfold generate_content_async.
    destruct (build_api_params _ _ _) as [p |].
    2:{ apply Forall_cons; [apply wf_error; simpl; auto 6 | constructor]. }
    destruct stream.
    + unfold _stream_completion.
      destruct (create_stream tr p) as [s |]; [| constructor].
      eapply Forall_impl; [| apply run_stream_shape].
      intros a [[t ->] | [q [qs [fr ->]]]]; constructor.
    + constructor; [apply make_raw_shape | constructor].
  - intros tr model req. unfold generate_content_async.
    destruct (build_api_params _ _ _) as [p |]; eexists;
      (split; [reflexivity |]); [apply make_raw_shape | reflexivity].
Qed.

(** X17. A failure of the raw request is reported, never raised: when the
    HTTP call raises, and when the body is neither an event stream nor
    JSON, the response is the error [ASYNC_RAW_HTTP_ERROR] carrying the
    exception. *)
Theorem raw_request_failures_are_reported :
  (forall (tr : Transport) (p : ApiParams) (e : exn),
      http_post tr (set_stream p false) = Raise e ->
      _make_raw_http_request_async tr p
      = error_response "ASYNC_RAW_HTTP_ERROR" (StrOf e))
  /\ (forall (tr : Transport) (p : ApiParams) (body : string),
         http_post tr (set_stream p false) = Ok body ->
         PyStr.startswith "data:" (PyStr.strip body) = false ->
         json_loads body = None ->
         _make_raw_http_request_async tr p
         = error_response "ASYNC_RAW_HTTP_ERROR" (StrOf JSONDecodeError)).
Proof.
  split.
  - intros tr p e H. unfold _make_raw_http_request_async. now rewrite H.
  - intros tr p body H Hd Hj. unfold _make_raw_http_request_async.
    rewrite H. cbn [bind]. rewrite Hd. unfold loads. now rewrite Hj.
Qed.

(** X18. A payload object without [choices], or whose [choices] is empty
    or otherwise false, gives the error [NO_CHOICES]. A payload whose
    first choice has a message (an object, or none at all) with no
    content (absent, null, empty or otherwise false) and whose tool calls
    are absent, false (null, an empty list) or a list of tool calls that
    are all skipped gives the error [NO_CONTENT]: a response without
    parts is never returned as a success. *)
Theorem empty_payloads_are_errors :
  (forall (o : obj) (flag : bool),
      match lookup "choices" o with
      | Some v => Py.truthy v = false
      | None => True
      end ->
      _convert_raw_response_to_llm_response (JObj o) flag
      = error_response "NO_CHOICES" (Literal "No choices in response"))
  /\ (forall (o choice m : obj) (rest : list json) (flag : bool),
         lookup "choices" o = Some (JArr (JObj choice :: rest)) ->
         match lookup "message" choice with
         | Some v => v
         | None => JObj []
         end = JObj m ->
         match lookup "content" m with
         | Some c => Py.truthy c = false
         | None => True
         end ->
         match lookup "tool_calls" m with
         | Some v =>
             Py.truthy v = false
             \/ exists (tcs : list json) (outs : list (option Part)),
                  v = JArr tcs
                  /\ Forall2 tool_call_outcome tcs outs
                  /\ kept_parts outs = []
         | None => True
         end ->
         _convert_raw_response_to_llm_response (JObj o) flag
         = error_response "NO_CONTENT" (Literal "No content in response")).
Proof.
  split.
  - intros o flag H.
    unfold _convert_raw_response_to_llm_response, Py.contains, Py.getitem,
      has_key.
    destruct (lookup "choices" o) as [v |]; [| reflexivity].
    cbn [negb bind]. rewrite H. reflexivity.
  - intros o choice m rest flag Hch Hm Hc Htc.
    unfold _convert_raw_response_to_llm_response, Py.contains, Py.getitem,
      Py.get, has_key.
    rewrite Hch. cbn [bind Py.truthy negb Py.getitem0].
    rewrite Hm. cbn [bind].
    assert (Fc : Py.truthy (match lookup "content" m with
                            | Some x => x
                            | None => JStr ""
                            end) = false).
    { destruct (lookup "content" m); [exact Hc | reflexivity]. }
    rewrite Fc. cbn [andb bind].
    destruct (lookup "tool_calls" m) as [v |]; [| reflexivity].
    destruct Htc as [Ft | [tcs [outs [-> [Hout Hk]]]]].
    + rewrite Ft. reflexivity.
    + destruct tcs as [| tc tcs'].
      * reflexivity.
      * cbn [Py.truthy bind PyIter.iter].
        rewrite (decode_tool_calls_outcomes Hout), Hk. reflexivity.
Qed.

Lemma text_kept_when_disabled (o choice m : obj) (rest : list json)
    (c : string) :
  lookup "choices" o = Some (JArr (JObj choice :: rest)) ->
  lookup "message" choice = Some (JObj m) ->
  lookup "content" m = Some (JStr c) -> c <> "" ->
  match lookup "tool_calls" m with
  | Some v => Py.truthy v = false
  | None => True
  end ->
  _convert_raw_response_to_llm_response (JObj o) true
  = final_response [text_part c] STOP.
Proof.
  intros Hch Hm Hc Hne Htc.
  unfold _convert_raw_response_to_llm_response, Py.contains, Py.getitem,
    Py.get, has_key.
  rewrite Hch. cbn [bind Py.truthy negb Py.getitem0].
  rewrite Hm. cbn [bind]. rewrite Hc.
  assert (Ft : Py.truthy (match lookup "tool_calls" m with
                          | Some x => x
                          | None => JArr []
                          end) = false).
  { destruct (lookup "tool_calls" m); [exact Htc | reflexivity]. }
  rewrite Ft, (truthy_nonempty_str Hne). reflexivity.
Qed.

(** X19. Once the request holds a message of role ["tool"], the text of a
    non-streaming answer is returned as it is and is never turned into a
    function call, even when it is the JSON text of one: this holds for a
    single-JSON body whose message has a non-empty content string and no
    tool calls, and for an event-stream body of wire-format frames with a
    non-empty concatenation. *)
Theorem tool_results_disable_recovery :
  (forall (tr : Transport) (p : ApiParams) (body : string)
          (o choice m : obj) (rest : list json) (c : string),
      any_tool_message (ap_messages p) = true ->
      http_post tr (set_stream p false) = Ok body ->
      PyStr.startswith "data:" (PyStr.strip body) = false ->
      json_loads body = Some (JObj o) ->
      lookup "choices" o = Some (JArr (JObj choice :: rest)) ->
      lookup "message" choice = Some (JObj m) ->
      lookup "content" m = Some (JStr c) -> c <> "" ->
      match lookup "tool_calls" m with
      | Some v => Py.truthy v = false
      | None => True
      end ->
      _make_raw_http_request_async tr p = final_response [text_part c] STOP)
  /\ (forall (tr : Transport) (p : ApiParams) (body : string)
             (fs : list string),
         any_tool_message (ap_messages p) = true ->
         http_post tr (set_stream p false) = Ok body ->
         PyStr.startswith "data:" (PyStr.strip body) = true ->
         body_fragments (PyStr.split_nl (PyStr.strip body)) = Some fs ->
         PyStr.join fs <> "" ->
         _make_raw_http_request_async tr p
         = final_response [text_part (PyStr.join fs)] STOP).
Proof.
  split.
  - intros tr p body o choice m rest c Ht Hp Hd Hj Hch Hm Hc Hne Htc.
    unfold _make_raw_http_request_async.
    rewrite Hp. cbn [bind]. rewrite Hd. unfold loads. rewrite Hj.
    cbn [bind]. change (ap_messages (set_stream p false)) with (ap_messages p).
    rewrite Ht. now apply (@text_kept_when_disabled o choice m rest c).
  - intros tr p body fs Ht Hp Hd Hf Hne.
    unfold _make_raw_http_request_async.
    rewrite Hp. cbn [bind]. rewrite Hd.
    rewrite (parse_raw_streaming_spec _ _ Hf).
    apply String.eqb_neq in Hne. rewrite Hne.
    change (ap_messages (set_stream p false)) with (ap_messages p).
    rewrite Ht. reflexivity.
Qed.

End ResponseProperties.

Lemma raw_request_failures_are_reported_witness :
  _make_raw_http_request_async (rt := RefRuntime)
    (const_transport (mkStream [] None) (Raise TransportError))
    example_params
  = error_response "ASYNC_RAW_HTTP_ERROR" (StrOf TransportError)
  /\ _make_raw_http_request_async (rt := RefRuntime)
       (const_transport (mkStream [] None) (Ok "<html>busy</html>"))
       example_params
     = error_response "ASYNC_RAW_HTTP_ERROR" (StrOf JSONDecodeError).
Proof.
  destruct (raw_request_failures_are_reported (rt := RefRuntime))
    as [raised garbage].
  split.
  - apply raised. reflexivity.
  - apply (garbage _ _ "<html>busy</html>"); reflexivity.
Defined.

Lemma empty_payloads_are_errors_witness :
  _convert_raw_response_to_llm_response (rt := RefRuntime)
    (JObj [("choices", JArr [])]) false
  = error_response "NO_CHOICES" (Literal "No choices in response")
  /\ _convert_raw_response_to_llm_response (rt := RefRuntime)
       (JObj [("choices",
               JArr [JObj [("message",
                            JObj [("content", JNull);
                                  ("tool_calls",
                                   JArr [JObj [("id", JStr "call_3")]])])]])])
       false
     = error_response "NO_CONTENT" (Literal "No content in response")
  /\ _convert_raw_response_to_llm_response (rt := RefRuntime)
       (JObj [("choices",
               JArr [JObj [("message",
                            JObj [("tool_calls", JNull)])]])])
       false
     = error_response "NO_CONTENT" (Literal "No content in response").
Proof.
  destruct (empty_payloads_are_errors (rt := RefRuntime))
    as [no_choices no_content].
  split; [| split].
  - apply no_choices. reflexivity.
  - apply (no_content _
             [("message",
               JObj [("content", JNull);
                     ("tool_calls", JArr [JObj [("id", JStr "call_3")]])])]
             [("content", JNull);
              ("tool_calls", JArr [JObj [("id", JStr "call_3")]])]
             [] false);
      try reflexivity.
    right. exists [JObj [("id", JStr "call_3")]], [None].
    split; [reflexivity |]. split; [| reflexivity].
    apply Forall2_cons; [| apply Forall2_nil].
    apply tool_call_no_function. reflexivity.
  - apply (no_content _
             [("message", JObj [("tool_calls", JNull)])]
             [("tool_calls", JNull)] [] false).
    + reflexivity.
    + reflexivity.
    + exact I.
    + left. reflexivity.
Defined.

Lemma tool_results_disable_recovery_witness :
  _make_raw_http_request_async (rt := RefRuntime)
    (const_transport (mkStream [] None)
       (Ok (Ref.q "{'choices': [{'message': {'content': '{}'}}]}")))
    (mkApiParams "m" [ToolMessage (Some "call_1") "null"] false
                 None None None None None None None None)
  = final_response [text_part "{}"] STOP.
Proof.
  apply (proj1 (tool_results_disable_recovery (rt := RefRuntime))
           (const_transport (mkStream [] None)
              (Ok (Ref.q "{'choices': [{'message': {'content': '{}'}}]}")))
           (mkApiParams "m" [ToolMessage (Some "call_1") "null"] false
                        None None None None None None None None)
           (Ref.q "{'choices': [{'message': {'content': '{}'}}]}")
           [("choices", JArr [JObj [("message", JObj [("content", JStr "{}")])]])]
           [("message", JObj [("content", JStr "{}")])]
           [("content", JStr "{}")] [] "{}");
    first [reflexivity | discriminate | exact I].
Defined.

(* ================================================================== *)
(** ** What recovery and suppression can and cannot do *)

Section RecoveryLimits.
Context {rt : Runtime}.

Lemma recover_shapes_sound (data : json) (content : string) (p : Part) :
  recover_shapes data content = Ok (Some p) ->
  exists (o : obj) (fc : FunctionCall),
    data = JObj o
    /\ shape1 o || shape2 o || shape3 o = true
    /\ p = function_call_part fc
    /\ fc_id fc = call_id content.
Proof.
  destruct data as [| | | | | o]; try discriminate.
  unfold recover_shapes, shape1, shape2, shape3, Py.get, Py.contains,
    Py.getitem, has_key, Py.eq_str.
  intros H. exists o.
  destruct (lookup "type" o) as [[| | | ty | |] |]; cbn [bind] in H;
    try destruct (String.eqb ty "function"); cbn [bind andb orb] in H |- *;
    destruct (lookup "function" o) as [fv |]; cbn [bind andb orb] in H |- *;
    destruct (lookup "parameters" o) as [pv |];
    cbn [bind andb orb] in H |- *;
    destruct (lookup "name" o) as [nv |]; cbn [bind andb orb] in H |- *;
    try discriminate H;
    try (destruct fv as [| | | | | f]; cbn [bind Py.is_dict] in H |- *;
         try discriminate H;
         destruct (lookup "name" f) as [fn |]; cbn [bind] in H |- *;
         try discriminate H);
    invert_ok H; injection H as <-;
    eexists; (split; [reflexivity |]); (split; [reflexivity |]);
    split; reflexivity.
Qed.

(** X20. Recovery is sound. Whenever it returns a part, conversion was
    allowed, the stripped text is bounded by braces and is the JSON text
    of an object that has one of the three shapes, and the part is a
    function call and nothing else, whose id is ["call_"] followed by a
    number from 0 to 9999, the hash of the stripped text modulo 10000: at
    most ten thousand different ids exist. *)
Theorem recovery_is_sound :
  forall (text : string) (allow : bool) (p : Part),
    _try_parse_function_call_from_text text allow = Ok (Some p) ->
    allow = true
    /\ bounded_by_braces (PyStr.strip text) = true
    /\ exists (o : obj) (fc : FunctionCall) (n : Z),
         json_loads (PyStr.strip text) = Some (JObj o)
         /\ shape1 o || shape2 o || shape3 o = true
         /\ p = function_call_part fc
         /\ 0 <= n < 10000
         /\ fc_id fc = JStr ("call_" ++ PyStr.of_Z n).
Proof.
  intros text allow p. unfold _try_parse_function_call_from_text.
  destruct allow; cbn [negb]; [| discriminate].
  destruct (bounded_by_braces (PyStr.strip text)); cbn [negb];
    [| discriminate].
  unfold try_except, loads.
  destruct (json_loads (PyStr.strip text)) as [data |]; cbn [bind];
    [| discriminate].
  destruct (recover_shapes data (PyStr.strip text)) as [r |] eqn:R.
  2:{ destruct (caught_by_recovery e); discriminate. }
  intros [= ->]. split; [reflexivity |]. split; [reflexivity |].
  destruct (recover_shapes_sound _ _ R) as [o [fc [-> [S [-> I]]]]].
  exists o, fc, (hash (PyStr.strip text) mod 10000).
  split; [reflexivity |]. split; [exact S |]. split; [reflexivity |].
  split; [apply Z.mod_pos_bound; lia | exact I].
Qed.

(** X21. The in-progress test is a plain substring test: it holds exactly
    when the accumulated text contains one of the two patterns, so the
    stripping and the two [startswith] checks change nothing. It is
    monotone: once it holds of the accumulated text it holds after any
    further text is appended. *)
Theorem in_progress_test_is_substring_test :
  forall acc t : string,
    _looks_like_function_call_in_progress acc
    = PyStr.contains pattern_name acc || PyStr.contains pattern_type acc
    /\ _looks_like_function_call_in_progress (PyStr.strip acc)
       = _looks_like_function_call_in_progress acc
    /\ (_looks_like_function_call_in_progress acc = true ->
        _looks_like_function_call_in_progress (acc ++ t) = true).
Proof.
  intros acc t. split; [apply looks_like_contains |]. split.
  - rewrite !looks_like_contains.
    now rewrite (@PyStrFacts.contains_strip pattern_name acc eq_refl eq_refl),
      (@PyStrFacts.contains_strip pattern_type acc eq_refl eq_refl).
  - apply looks_like_grows.
Qed.

End RecoveryLimits.

Lemma recovery_is_sound_witness :
  true = true
  /\ bounded_by_braces (PyStr.strip get_weather_text) = true
  /\ exists (o : obj) (fc : FunctionCall) (n : Z),
       json_loads (Runtime := RefRuntime) (PyStr.strip get_weather_text)
       = Some (JObj o)
       /\ shape1 o || shape2 o || shape3 o = true
       /\ function_call_part
            (mkFunctionCall (JStr "call_6106") (Some "get_weather")
                            (Some [("city", JStr "Singapore")]))
          = function_call_part fc
       /\ 0 <= n < 10000
       /\ fc_id fc = JStr ("call_" ++ PyStr.of_Z n).
Proof.
  apply (recovery_is_sound (rt := RefRuntime) get_weather_text true).
  reflexivity.
Defined.

Lemma in_progress_test_is_substring_test_witness :
  _looks_like_function_call_in_progress (pattern_type ++ ": ") = true.
Proof.
  apply (proj2 (proj2 (in_progress_test_is_substring_test
                         pattern_type ": "))).
  reflexivity.
Defined.

(* ================================================================== *)
(** ** Tool calls with unusable arguments *)

Section ToolCallArguments.
Context {rt : Runtime}.

Lemma decode_tool_calls_raise (pre post : list json) (tc : json)
    (outs : list (option Part)) (e : exn) :
  Forall2 tool_call_outcome pre outs ->
  decode_tool_call tc = Raise e ->
  decode_tool_calls (pre ++ tc :: post) = Raise e.
Proof.
  intros H R. induction H as [| x o pre outs Hx _ IH].
  - cbn [app decode_tool_calls]. now rewrite R.
  - cbn [app decode_tool_calls].
    now rewrite (decode_tool_call_outcome Hx), IH.
Qed.

(** X22. Skipping is not all the decoder does with a bad tool call: when
    the [arguments] of a tool call hold a true value that is not a string
    (an object, as some servers send it, a list, a number) the whole
    response is the error [RAW_CONVERSION_ERROR], although the message
    has content and the other tool calls are fine. *)
Theorem non_string_arguments_fail_the_response :
  forall (o choice m t f : obj) (rest pre post : list json) (c : string)
         (n a : json) (outs : list (option Part)) (flag : bool),
    lookup "choices" o = Some (JArr (JObj choice :: rest)) ->
    lookup "message" choice = Some (JObj m) ->
    lookup "content" m = Some (JStr c) ->
    lookup "tool_calls" m = Some (JArr (pre ++ JObj t :: post)) ->
    Forall2 tool_call_outcome pre outs ->
    lookup "function" t = Some (JObj f) ->
    lookup "name" f = Some n ->
    lookup "arguments" f = Some a ->
    Py.truthy a = true -> Py.is_str a = false ->
    _convert_raw_response_to_llm_response (JObj o) flag
    = error_response "RAW_CONVERSION_ERROR" (StrOf TypeError).
Proof.
  intros o choice m t f rest pre post c n a outs flag
         Hch Hm Hc Htc Hpre Hf Hn Ha Hta Hsa.
  assert (R : decode_tool_call (JObj t) = Raise TypeError).
  { unfold decode_tool_call, Py.getitem. rewrite Hf. cbn [bind].
    rewrite Hn, Ha. cbn [bind]. rewrite Hta. cbn [bind].
    destruct a; try discriminate; reflexivity. }
  assert (T : Py.truthy (JArr (pre ++ JObj t :: post)) = true).
  { destruct pre; reflexivity. }
  unfold _convert_raw_response_to_llm_response, Py.contains, Py.getitem,
    Py.get, has_key.
  rewrite Hch. cbn [bind Py.truthy negb Py.getitem0].
  rewrite Hm. cbn [bind]. rewrite Hc, Htc. cbn [bind].
  rewrite T. cbn [negb andb PyIter.iter bind].
  rewrite andb_false_r.
  rewrite (@decode_tool_calls_raise pre post (JObj t) outs TypeError Hpre R).
  destruct (Py.truthy (JStr c)); reflexivity.
Qed.


End ToolCallArguments.

Lemma non_string_arguments_fail_the_response_witness :
  _convert_raw_response_to_llm_response (rt := RefRuntime)
    (JObj [("choices",
            JArr [JObj [("message",
                         JObj [("content", JStr "Let me check.");
                               ("tool_calls",
                                JArr [JObj [("function",
                                             JObj [("name", JStr "get_weather");
                                                   ("arguments",
                                                    JObj [("city",
                                                           JStr "Singapore")])])]])])]])])
    false
  = error_response "RAW_CONVERSION_ERROR" (StrOf TypeError).
Proof.
  apply (@non_string_arguments_fail_the_response RefRuntime
           _
           [("message",
             JObj [("content", JStr "Let me check.");
                   ("tool_calls",
                    JArr [JObj [("function",
                                 JObj [("name", JStr "get_weather");
                                       ("arguments",
                                        JObj [("city", JStr "Singapore")])])]])])]
           [("content", JStr "Let me check.");
            ("tool_calls",
             JArr [JObj [("function",
                          JObj [("name", JStr "get_weather");
                                ("arguments",
                                 JObj [("city", JStr "Singapore")])])]])]
           [("function",
             JObj [("name", JStr "get_weather");
                   ("arguments", JObj [("city", JStr "Singapore")])])]
           [("name", JStr "get_weather");
            ("arguments", JObj [("city", JStr "Singapore")])]
           [] [] [] "Let me check." (JStr "get_weather")
           (JObj [("city", JStr "Singapore")]) [] false);
    first [reflexivity | apply Forall2_nil].
Defined.

